(** * jsonmon: the check scheduler and the status cache

    A shallow embedding of [main.go]: the per-check worker with its retry
    loop, the failure/recovery transitions with their notifications, the
    redirect policy of the web probe, and the conditional GET of the
    status API.

    Conventions.
    - A Go [int] is a [Z]; a [time.Duration] is a [Z] of nanoseconds with
      the 64-bit wrap-around of its multiplication written out.
    - A Go [error] is an [option string]: [None] is [nil], [Some e] an
      error whose [Error()] text is [e].
    - A [*Check] into the global slice [checks] is an index into a list.
    - Everything the program does to the outside world is an [Event] of
      a trace; everything the outside world answers is an input
      ([CycleEnv], [Server], [Time]). *)

From Stdlib Require Import ZArith String Ascii List Lia DecimalString DecimalZ.
From stdpp Require Import base list strings gmap.
Import ListNotations.

Local Open Scope string_scope.
Local Open Scope list_scope.

(** ** Strings *)

(** The double quote and the line feed. *)
Definition dq : string := String "034"%char EmptyString.
Definition nl : string := String "010"%char EmptyString.

(** [strconv.FormatInt(n, 10)] and [strconv.Itoa]. *)
Definition FormatInt (n : Z) : string := NilZero.string_of_int (Z.to_int n).

(** [strconv.FormatBool]. *)
Definition FormatBool (b : bool) : string := if b then "true" else "false".

(** [s != ""]. *)
Definition nonempty (s : string) : bool := negb (String.eqb s "").

(** [contains t s]: the text [t] occurs in [s]. *)
Fixpoint contains (t s : string) : bool :=
  match s with
  | EmptyString => String.prefix t EmptyString
  | String _ s' => String.prefix t s || contains t s'
  end.

(** ** Data model *)

(** [type Check struct], lines 51-64. *)
Record Check := mkCheck {
  Name   : string;
  Web    : string;
  Shell  : string;
  Match  : string;
  Return : Z;
  Notify : string;
  Alert  : string;
  Tries  : Z;
  Repeat : Z;
  Sleep  : Z;
  Failed : bool;
  Since  : string
}.

Definition set_Failed (b : bool) (c : Check) : Check :=
  mkCheck (Name c) (Web c) (Shell c) (Match c) (Return c) (Notify c) (Alert c)
          (Tries c) (Repeat c) (Sleep c) b (Since c).
Definition set_Since (s : string) (c : Check) : Check :=
  mkCheck (Name c) (Web c) (Shell c) (Match c) (Return c) (Notify c) (Alert c)
          (Tries c) (Repeat c) (Sleep c) (Failed c) s.
Definition set_Repeat (n : Z) (c : Check) : Check :=
  mkCheck (Name c) (Web c) (Shell c) (Match c) (Return c) (Notify c) (Alert c)
          (Tries c) n (Sleep c) (Failed c) (Since c).
Definition set_Tries (n : Z) (c : Check) : Check :=
  mkCheck (Name c) (Web c) (Shell c) (Match c) (Return c) (Notify c) (Alert c)
          n (Repeat c) (Sleep c) (Failed c) (Since c).
Definition set_Return (n : Z) (c : Check) : Check :=
  mkCheck (Name c) (Web c) (Shell c) (Match c) n (Notify c) (Alert c)
          (Tries c) (Repeat c) (Sleep c) (Failed c) (Since c).

(** [type ver struct], lines 41-46. *)
Record ver := mkVer { App : string; Go : string; Os : string; Arch : string }.

(** A reading of [time.Now()], with the two renderings the program takes
    of it: [ts.UnixNano()] and [ts.Format(time.RFC3339)]. *)
Record Time := mkTime { UnixNano : Z; RFC3339 : string }.

(** [func etag], lines 80-82. *)
Definition etag (ts : Time) : string :=
  "W/" +:+ dq +:+ FormatInt (UnixNano ts) +:+ dq.

(** [time.Second * time.Duration(n)]: an [int64] product. *)
Definition wrap64 (z : Z) : Z :=
  ((z + 2 ^ 63) mod 2 ^ 64 - 2 ^ 63)%Z.
Definition seconds (n : Z) : Z := wrap64 (1000000000 * n).

(** ** The outside world *)

(** An HTTP request as far as the program shapes it: the URL and the
    [User-Agent] header ([None]: the header is not set). *)
Record Request := mkRequest { URL : string; UserAgent : option string }.

(** What the program does to the outside world. *)
Inductive Event :=
| EvShell (cmd : string)                  (* exec.Command(sh, -c, cmd).CombinedOutput() *)
| EvHTTP (req : Request)                  (* one GET sent by client.Do *)
| EvSleep (d : Z)                         (* time.Sleep(d) *)
| EvStdout (s : string)                   (* fmt.Print *)
| EvStderr (s : string)                   (* fmt.Fprint(os.Stderr, ...) *)
| EvMail (stdin : string)                 (* /usr/sbin/sendmail -t, fed stdin *)
| EvAlert (cmd : string) (args : list string). (* exec.Command(cmd, args...) *)

(** The result of [CombinedOutput()]: the captured output and the error. *)
Record ExecResult := mkExec { out : string; err : option string }.

(** What a server answers to one request: a transport error, a redirect
    to another location, or a final response. *)
Inductive Reply :=
| NetErr (e : string)
| Redirect (loc : string)
| Final (status : Z) (body : string).

Definition Server := Request -> Reply.

(** What the world answers during one polling cycle: the k-th run of the
    shell command, the web as the k-th fetch finds it, the clock when the
    results are processed, and how sendmail and the alert command fare. *)
Record CycleEnv := mkEnv {
  runs       : nat -> ExecResult;
  webs       : nat -> Server;
  now        : Time;
  mail_start : option string;
  alert_run  : ExecResult
}.

(** The Go libraries the program calls and this development does not
    define: [regexp.Compile] with the [Match] of a compiled expression, and
    the error, if any, of [http.NewRequest] on a URL. *)
Class GoLib := {
  Regexp : Type;
  regexp_Compile : string -> Regexp + string;
  regexp_Match : Regexp -> string -> bool;
  NewRequest_err : string -> option string
}.

(** ** Programs of a worker

    A worker reads and writes its own check ([chk]) and the global
    [modified] token ([tok]), and leaves a trace. *)
Record St := mkSt { chk : Check; tok : string }.

Definition Prog (A : Type) : Type := St -> A * St * list Event.

Definition ret {A} (a : A) : Prog A := fun st => (a, st, []).
Definition bind {A B} (p : Prog A) (k : A -> Prog B) : Prog B :=
  fun st =>
    let '(a, st1, tr1) := p st in
    let '(b, st2, tr2) := k a st1 in
    (b, st2, tr1 ++ tr2).
Definition emit (tr : list Event) : Prog unit := fun st => (tt, st, tr).
Definition get_check : Prog Check := fun st => (chk st, st, []).
Definition update (f : Check -> Check) : Prog unit :=
  fun st => (tt, mkSt (f (chk st)) (tok st), []).
Definition set_modified (tok : string) : Prog unit :=
  fun st => (tt, mkSt (chk st) tok, []).
Definition when (b : bool) (p : Prog unit) : Prog unit :=
  if b then p else ret tt.

Notation "x <- p ;; k" := (bind p (fun x => k))
  (at level 100, p at next level, right associativity).
Notation "p ;;; k" := (bind p (fun _ => k))
  (at level 100, right associativity).

Definition state_of {A} (r : A * St * list Event) : St := snd (fst r).
Definition trace_of {A} (r : A * St * list Event) : list Event := snd r.

(** ** The web probe's redirect policy *)

(** [func redirect], lines 338-346: [via] holds the requests made
    already, oldest first; the upcoming request gets the user agent. *)
Definition redirect (req : Request) (via : list Request) : Request * option string :=
  if (10 <=? length via)%nat
  then (req, Some "stopped after 10 redirects")
  else (mkRequest (URL req) (Some "jsonmon"), None).

(** The text of the [url.Error] in which [client.Do] wraps an error. *)
Definition url_Error (op url e : string) : string :=
  op +:+ " " +:+ dq +:+ url +:+ dq +:+ ": " +:+ e.

Inductive DoResult :=
| DoErr (e : string)
| DoResp (StatusCode : Z) (Body : string).

(** [client.Do] of net/http with [CheckRedirect = redirect]: send the
    request; on a redirect build the request for the new location (its
    headers are fresh), append the request just made to [via], ask
    [redirect], and go on unless it objects; the error of a transport is
    named after the URL of the request, the error of [redirect] after the
    location it refuses.  [None]: out of fuel. *)
Fixpoint client_send (fuel : nat) (srv : Server) (req : Request) (via : list Request)
  : option DoResult * list Event :=
  match srv req with
  | NetErr e => (Some (DoErr (url_Error "Get" (URL req) e)), [EvHTTP req])
  | Final st body => (Some (DoResp st body), [EvHTTP req])
  | Redirect loc =>
      let via' := via ++ [req] in
      match redirect (mkRequest loc None) via' with
      | (_, Some e) => (Some (DoErr (url_Error "Get" loc e)), [EvHTTP req])
      | (nreq, None) =>
          match fuel with
          | O => (None, [EvHTTP req])
          | S fuel' =>
              let '(r, tr) := client_send fuel' srv nreq via' in
              (r, EvHTTP req :: tr)
          end
      end
  end.

Definition client_Do (srv : Server) (req : Request) : option DoResult * list Event :=
  client_send 10 srv req [].

Section Monitor.
Context `{GoLib}.

(** ** Probes *)

(** Lines 231-237 and 363-373: what was captured (the output of a command
    that exited with status zero, the body of a response with the expected
    status) is matched against [match], when that is set. *)
Definition match_output (m captured : string) : option string :=
  if nonempty m then
    match regexp_Compile m with
    | inr e => Some e
    | inl regex =>
        if regexp_Match regex captured then None
        else Some ("Expected:" +:+ nl +:+ m +:+ nl +:+ nl +:+ "Got:" +:+ nl +:+ captured)
    end
  else None.

(** The loop of [func shell], lines 226-244.  [left] is [check.Tries - i]
    and [k] counts the runs; [acc] is [(out, err)] as the last run left
    them.  A run that exits with status zero leaves the loop, whatever the
    match says. *)
Fixpoint shell_tries (left k : nat) (cmd m : string) (sleep : Z)
    (run : nat -> ExecResult) (acc : string * option string)
  : (string * option string) * list Event :=
  match left with
  | O => (acc, [])
  | S left' =>
      let r := run k in
      match err r with
      | None => ((out r, match_output m (out r)), [EvShell cmd])
      | Some e =>
          let '(res, tr) := shell_tries left' (S k) cmd m sleep run (out r, Some e) in
          (res, EvShell cmd :: (if left' is O then [] else [EvSleep sleep]) ++ tr)
      end
  end.

(** [func fetch], lines 349-381.  [client_Do] always returns
    ([client_send_returns]); the case [None] is there for the fuel. *)
Definition fetch (srv : Server) (url m : string) (code : Z) : option string * list Event :=
  match NewRequest_err url with
  | Some e => (Some e, [])
  | None =>
      let req := mkRequest url (Some "jsonmon") in
      match client_Do srv req with
      | (None, tr) => (Some "client.Do does not return", tr)
      | (Some (DoErr e), tr) => (Some e, tr)
      | (Some (DoResp status body), tr) =>
          if negb (status =? code)%Z
          then (Some (url +:+ " returned " +:+ FormatInt status), tr)
          else (match_output m body, tr)
      end
  end.

(** The loop of [func web], lines 287-297, with [left] and [k] as in
    [shell_tries] and [acc] the [err] of the last fetch. *)
Fixpoint web_tries (left k : nat) (url m : string) (code sleep : Z)
    (web : nat -> Server) (acc : option string)
  : option string * list Event :=
  match left with
  | O => (acc, [])
  | S left' =>
      let '(e, tr1) := fetch (web k) url m code in
      match e with
      | None => (None, tr1)
      | Some _ =>
          let '(res, tr) := web_tries left' (S k) url m code sleep web e in
          (res, tr1 ++ (if left' is O then [] else [EvSleep sleep]) ++ tr)
      end
  end.

(** ** Notifications *)

(** [func log], lines 384-391. *)
Definition log (subject : string) (message : option string) : Prog unit :=
  match message with
  | None => emit [EvStdout ("<5>" +:+ subject +:+ nl)]
  | Some msg => emit [EvStdout ("<5>" +:+ subject +:+ nl +:+ msg +:+ nl)]
  end.

(** [func notify], lines 394-415. *)
Definition notify (env : CycleEnv) (subject : string) (message : option string) : Prog unit :=
  check <- get_check ;;
  let msg := "To: " +:+ Notify check +:+ nl +:+ "Subject: " +:+ subject +:+ nl
             +:+ "X-Mailer: jsonmon" +:+ nl +:+ nl
             +:+ (match message with Some m => m | None => "" end)
             +:+ nl +:+ "." +:+ nl in
  when (bool_decide (is_Some (mail_start env)))
       (emit [EvStderr ("<3>" +:+ default "" (mail_start env) +:+ nl)]) ;;;
  emit [EvMail msg].

(** [func alert], lines 418-429. *)
Definition alert (env : CycleEnv) (name : string) (msg : option string) (failed : bool)
  : Prog unit :=
  check <- get_check ;;
  let r := alert_run env in
  match msg with
  | Some m => emit [EvAlert (Alert check) [FormatBool failed; name; m]]
  | None => emit [EvAlert (Alert check) [FormatBool failed; name]]
  end ;;;
  match err r with
  | Some e => emit [EvStderr ("<3>" +:+ Alert check +:+ " failed" +:+ nl +:+ out r +:+ e +:+ nl)]
  | None => ret tt
  end.

(** ** Processing the results of a cycle *)

(** Lines 247-262 and 300-315: the probe succeeded on a failed check. *)
Definition fixed (env : CycleEnv) (name : string) : Prog unit :=
  let ts := now env in
  update (set_Failed false) ;;;
  update (set_Since (RFC3339 ts)) ;;;
  set_modified (etag ts) ;;;
  let subject := "Fixed: " +:+ name in
  log subject None ;;;
  check <- get_check ;;
  when (nonempty (Notify check)) (notify env subject None) ;;;
  when (nonempty (Alert check)) (alert env name None false).

(** Lines 264-280 and 317-333: the probe failed on a check that was up;
    [msg] is [string(out) + err.Error()] for a shell check and
    [err.Error()] for a web check. *)
Definition broken (env : CycleEnv) (name msg : string) : Prog unit :=
  let ts := now env in
  update (set_Failed true) ;;;
  update (set_Since (RFC3339 ts)) ;;;
  set_modified (etag ts) ;;;
  let subject := "Failed: " +:+ name in
  log subject (Some msg) ;;;
  check <- get_check ;;
  when (nonempty (Notify check)) (notify env subject (Some msg)) ;;;
  when (nonempty (Alert check)) (alert env name (Some msg) true).

(** [func shell], lines 224-282. *)
Definition shell (name : string) (sleep : Z) (env : CycleEnv) : Prog unit :=
  check <- get_check ;;
  let '((o, e), tr) :=
    shell_tries (Z.to_nat (Tries check)) 0 (Shell check) (Match check) sleep
                (runs env) ("", None) in
  emit tr ;;;
  check <- get_check ;;
  match e with
  | None => when (Failed check) (fixed env name)
  | Some e => when (negb (Failed check)) (broken env name (o +:+ e))
  end.

(** [func web], lines 285-335. *)
Definition web (name : string) (sleep : Z) (env : CycleEnv) : Prog unit :=
  check <- get_check ;;
  let '(e, tr) :=
    web_tries (Z.to_nat (Tries check)) 0 (Web check) (Match check) (Return check)
              sleep (webs env) None in
  emit tr ;;;
  check <- get_check ;;
  match e with
  | None => when (Failed check) (fixed env name)
  | Some e => when (negb (Failed check)) (broken env name e)
  end.

End Monitor.

(** ** JSON

    [json.Marshal] on the two values the program serves.  Bytes below 128
    are encoded as encoding/json does with HTML escaping on; bytes from
    128 on are copied (the replacement of invalid UTF-8 and the escapes of
    U+2028 and U+2029 are not modelled). *)

Definition hex_digit (n : nat) : ascii :=
  match String.get n "0123456789abcdef" with Some a => a | None => "0"%char end.

Definition json_byte (a : ascii) : string :=
  let n := nat_of_ascii a in
  if Ascii.eqb a "\"%char || Ascii.eqb a "034"%char then String "\"%char (String a EmptyString)
  else if Ascii.eqb a "010"%char then "\n"
  else if Ascii.eqb a "013"%char then "\r"
  else if Ascii.eqb a "009"%char then "\t"
  else if (n <? 32)%nat || Ascii.eqb a "<"%char || Ascii.eqb a ">"%char || Ascii.eqb a "&"%char
  then "\u00" +:+ String (hex_digit (n / 16)) (String (hex_digit (n mod 16)) EmptyString)
  else String a EmptyString.

Definition json_string (s : string) : string :=
  dq +:+ String.concat "" (map json_byte (list_ascii_of_string s)) +:+ dq.

Definition json_bool (b : bool) : string := if b then "true" else "false".

(** A member [key:value]; with [omitempty] an empty string has none. *)
Definition member (key value : string) : list string :=
  [dq +:+ key +:+ dq +:+ ":" +:+ value].
Definition member_omitempty (key s : string) : list string :=
  if nonempty s then member key (json_string s) else [].

Definition json_object (members : list string) : string :=
  "{" +:+ String.concat "," members +:+ "}".

(** The json tags of [Check], lines 52-63. *)
Definition marshal_Check (c : Check) : string :=
  json_object (member_omitempty "name" (Name c)
               ++ member_omitempty "web" (Web c)
               ++ member_omitempty "shell" (Shell c)
               ++ member "failed" (json_bool (Failed c))
               ++ member_omitempty "since" (Since c)).

(** The json tags of [ver], lines 42-45. *)
Definition marshal_ver (v : ver) : string :=
  json_object (member "jsonmon" (json_string (App v))
               ++ member "runtime" (json_string (Go v))
               ++ member "os" (json_string (Os v))
               ++ member "arch" (json_string (Arch v))).

(** The [data interface{}] of [displayJSON]: the slice [checks], which is
    nil ([NilChecks]) or holds a list of checks, or the version. *)
Inductive Data :=
| NilChecks
| Checks (l : list Check)
| Version (v : ver).

(** [json.Marshal]: a slice that is nil is written [null]. *)
Definition json_Marshal (data : Data) : string :=
  match data with
  | NilChecks => "null"
  | Checks l => "[" +:+ String.concat "," (map marshal_Check l) +:+ "]"
  | Version v => marshal_ver v
  end.

(** ** The status API *)

(** The globals, lines 48 and 67-72.  [checks_nil]: the slice [checks] is
    nil, as [yaml.Unmarshal] leaves it when the document of the
    configuration is empty; it has no element then. *)
Record Mon := mkMon {
  checks     : list Check;
  modified   : string;
  started    : string;
  version    : ver;
  checks_nil : bool
}.

(** An [http.Header] of a request: a key, in its canonical form, has a
    list of values. *)
Record HttpRequest := mkHttpRequest { ReqHeader : gmap string (list string) }.

(** [Header.Get]: the first value of the key, or the empty string. *)
Definition Header_Get (h : gmap string (list string)) (key : string) : string :=
  match h !! key with
  | Some (v :: _) => v
  | _ => ""
  end.

(** An [http.ResponseWriter]: the headers, the status once it is written,
    and the body. *)
Record ResponseWriter := mkW {
  Header : gmap string string;
  status : option Z;
  body   : string
}.

Definition Header_Set (key value : string) (w : ResponseWriter) : ResponseWriter :=
  mkW (<[key := value]> (Header w)) (status w) (body w).

(** [w.WriteHeader(code)]; a status already written stays. *)
Definition WriteHeader (code : Z) (w : ResponseWriter) : ResponseWriter :=
  match status w with
  | Some _ => w
  | None => mkW (Header w) (Some code) (body w)
  end.

(** [w.Write(data)] writes the status 200 first if none was written. *)
Definition Write (data : string) (w : ResponseWriter) : ResponseWriter :=
  let w := WriteHeader 200 w in
  mkW (Header w) (status w) (body w +:+ data).

Definition new_response : ResponseWriter := mkW ∅ None "".

(** [func displayJSON], lines 474-500.  [cache] is the token read under
    the read lock, [data] the value read under it. *)
Definition displayJSON (w : ResponseWriter) (r : HttpRequest) (data : Data)
    (cache : string) (lock : bool) : ResponseWriter :=
  let w := Header_Set "Server" "jsonmon" w in
  if String.eqb (Header_Get (ReqHeader r) "If-None-Match") cache then
    WriteHeader 304 w
  else
    let w := Header_Set "ETag" cache w in
    let result := json_Marshal data in
    let w := Header_Set "Cache-Control" "no-cache" w in
    let w := Header_Set "Access-Control-Allow-Origin" "*" w in
    let w := Header_Set "X-Content-Type-Options" "nosniff" w in
    let w := Header_Set "Content-Type" "application/json; charset=utf-8" w in
    Write result w.

(** [func getChecks], lines 464-466. *)
Definition getChecks (g : Mon) (w : ResponseWriter) (r : HttpRequest) : ResponseWriter :=
  displayJSON w r (if checks_nil g then NilChecks else Checks (checks g)) (modified g) true.

(** [func getVersion], lines 469-471. *)
Definition getVersion (g : Mon) (w : ResponseWriter) (r : HttpRequest) : ResponseWriter :=
  displayJSON w r (Version (version g)) (started g) false.

(** ** The worker *)

(** Where a worker stands: not yet run, in one of its two polling loops
    (with the locals [name], [sleep] and [repeat]), or returned. *)
Inductive Phase :=
| Spawned
| Polling (is_web : bool) (name : string) (sleep repeat : Z)
| Returned.

(** [func worker] up to its loops, lines 166-205 and 210-215. *)
Definition worker_start : Prog Phase :=
  check <- get_check ;;
  if negb (nonempty (Shell check)) && negb (nonempty (Web check)) then
    emit [EvStderr ("<4>Ignoring entry with no either Web or shell check" +:+ nl)] ;;;
    update (set_Failed true) ;;;
    ret Returned
  else if nonempty (Shell check) && nonempty (Web check) then
    emit [EvStderr ("<3>Web and shell checks in one block are not allowed" +:+ nl
                    +:+ "<3>Disabled: " +:+ Shell check +:+ nl
                    +:+ "<3>Disabled: " +:+ Web check +:+ nl)] ;;;
    update (set_Failed true) ;;;
    ret Returned
  else
    when (Repeat check =? 0)%Z (update (set_Repeat 30)) ;;;
    when (Tries check =? 0)%Z (update (set_Tries 1)) ;;;
    check <- get_check ;;
    let repeat := seconds (Repeat check) in
    let sleep := seconds (Sleep check) in
    if nonempty (Web check) then
      let name := if nonempty (Name check) then Name check else Web check in
      when (Return check =? 0)%Z (update (set_Return 200)) ;;;
      ret (Polling true name sleep repeat)
    else
      let name := if nonempty (Name check) then Name check else Shell check in
      ret (Polling false name sleep repeat).

Section Worker.
Context `{GoLib}.

(** One turn of a loop of [func worker], lines 206-209 and 216-219. *)
Definition poll (is_web : bool) (name : string) (sleep repeat : Z) (env : CycleEnv)
  : Prog unit :=
  (if is_web then web name sleep env else shell name sleep env) ;;;
  emit [EvSleep repeat].

(** As many turns as there are environments: a prefix of the loop, which
    has no end of its own. *)
Fixpoint polls (is_web : bool) (name : string) (sleep repeat : Z) (envs : list CycleEnv)
  : Prog unit :=
  match envs with
  | [] => ret tt
  | env :: envs' => poll is_web name sleep repeat env ;;; polls is_web name sleep repeat envs'
  end.

(** [func worker] over the cycles [envs]. *)
Definition worker (envs : list CycleEnv) : Prog unit :=
  ph <- worker_start ;;
  match ph with
  | Polling is_web name sleep repeat => polls is_web name sleep repeat envs
  | _ => ret tt
  end.

(** ** The process: the globals and one worker per check *)

Record Sys := mkSys {
  globals : Mon;
  phases  : list Phase;
  journal : list (nat * Event)
}.

(** [yaml.Unmarshal], line 121: [Failed] and [Since] carry the yaml tag
    that keeps them out of the configuration. *)
Definition load (config : list Check) : list Check :=
  map (fun c => set_Since "" (set_Failed false c)) config.

(** [func main], lines 121 and 134-139, on a configuration whose document
    is a sequence of checks. *)
Definition main (config : list Check) (t0 : Time) (v : ver) : Sys :=
  mkSys (mkMon (load config) (etag t0) (etag t0) v false)
        (map (fun _ => Spawned) config) [].

(** [func main] on a configuration whose document is empty: [checks]
    stays nil and no worker is spawned. *)
Definition main_empty (t0 : Time) (v : ver) : Sys :=
  mkSys (mkMon [] (etag t0) (etag t0) v true) [] [].

(** The program [p] of worker [i] on [&checks[i]] and [modified]. *)
Definition on_check {A} (i : nat) (p : Prog A) (s : Sys) : option (A * Sys) :=
  let g := globals s in
  match checks g !! i with
  | None => None
  | Some c =>
      let '(a, st, tr) := p (mkSt c (modified g)) in
      Some (a, mkSys (mkMon (<[i := chk st]> (checks g)) (tok st) (started g) (version g)
                            (checks_nil g))
                     (phases s) (journal s ++ map (pair i) tr))
  end.

(** The scheduler lets worker [i] go on: a spawned worker runs up to its
    loop, a polling one makes one turn, a returned one is gone. *)
Definition step (i : nat) (env : CycleEnv) (s : Sys) : Sys :=
  match phases s !! i with
  | Some Spawned =>
      match on_check i worker_start s with
      | Some (ph, s') => mkSys (globals s') (<[i := ph]> (phases s')) (journal s')
      | None => s
      end
  | Some (Polling is_web name sleep repeat) =>
      match on_check i (poll is_web name sleep repeat env) s with
      | Some (_, s') => s'
      | None => s
      end
  | _ => s
  end.

Fixpoint run (schedule : list (nat * CycleEnv)) (s : Sys) : Sys :=
  match schedule with
  | [] => s
  | (i, env) :: schedule' => run schedule' (step i env s)
  end.

(** [GET /status] on the process. *)
Definition status_of (s : Sys) (r : HttpRequest) : ResponseWriter :=
  getChecks (globals s) new_response r.

End Worker.

(** ** Reading traces *)

Definition is_probe (e : Event) : bool :=
  match e with EvShell _ | EvHTTP _ => true | _ => false end.
Definition is_sleep (e : Event) : bool :=
  match e with EvSleep _ => true | _ => false end.
Definition is_log (e : Event) : bool :=
  match e with EvStdout _ => true | _ => false end.
Definition is_alert (e : Event) : bool :=
  match e with EvAlert _ _ => true | _ => false end.
(** A notification: the log line, the mail or the alert command. *)
Definition is_notification (e : Event) : bool :=
  match e with EvStdout _ | EvMail _ | EvAlert _ _ => true | _ => false end.

Definition count (f : Event -> bool) (tr : list Event) : nat :=
  length (List.filter f tr).

(** A probe or a sleep: what the tries of a cycle leave in a trace. *)
Definition is_quiet (e : Event) : bool := is_probe e || is_sleep e.

(** ** A library to run examples with

    It knows that the pattern made of an opening parenthesis does not
    compile, and takes any other pattern for a literal, as regexp does
    with a pattern free of metacharacters; it lets every URL parse. *)
Definition example_Compile (p : string) : string + string :=
  if String.eqb p "("
  then inr "error parsing regexp: missing closing ): `(`"
  else inl p.

Definition example_lib : GoLib :=
  {| Regexp := string;
     regexp_Compile := example_Compile;
     regexp_Match := contains;
     NewRequest_err := fun _ => None |}.

(** A server that, asked for [start], answers [n] redirects in a row, each
    to a URL one character longer, before its final response. *)
Definition chain (start : string) (n : nat) : Server :=
  fun req =>
    if (String.length (URL req) <? String.length start + n)%nat
    then Redirect (URL req +:+ "/")
    else Final 200 "done".

(** ** What a cycle finds *)

Section Verdict.
Context `{GoLib}.

(** The tries of a cycle as [shell] and [web] make them: the diagnostic
    [msg] of a failure ([None]: the cycle succeeded) and the trace. *)
Definition attempts (is_web : bool) (c : Check) (sleep : Z) (env : CycleEnv)
  : option string * list Event :=
  if is_web then
    web_tries (Z.to_nat (Tries c)) 0 (Web c) (Match c) (Return c) sleep (webs env) None
  else
    let '((o, e), tr) :=
      shell_tries (Z.to_nat (Tries c)) 0 (Shell c) (Match c) sleep (runs env) ("", None) in
    (option_map (fun e => o +:+ e) e, tr).

(** The verdict of a cycle: [true] when it failed. *)
Definition verdict (is_web : bool) (c : Check) (sleep : Z) (env : CycleEnv) : bool :=
  match fst (attempts is_web c sleep env) with
  | Some _ => true
  | None => false
  end.

(** What a cycle does once the tries are over. *)
Definition process (env : CycleEnv) (name : string) (c : Check) (d : option string)
  : Prog unit :=
  match d with
  | None => when (Failed c) (fixed env name)
  | Some msg => when (negb (Failed c)) (broken env name msg)
  end.

(** The process of one check once its worker has started and made one
    cycle. *)
Definition after_one_cycle (c : Check) (t0 : Time) (v : ver) (env0 env : CycleEnv) : Sys :=
  step 0 env (step 0 env0 (main [c] t0 v)).

End Verdict.

(** Both or neither of [Web] and [Shell] set, lines 167 and 174. *)
Definition invalid (c : Check) : bool :=
  (negb (nonempty (Shell c)) && negb (nonempty (Web c)))
  || (nonempty (Shell c) && nonempty (Web c)).

(** The probes of worker [i] in a journal. *)
Definition probes_of (i : nat) (j : list (nat * Event)) : list (nat * Event) :=
  List.filter (fun ie => Nat.eqb (fst ie) i && is_probe (snd ie)) j.

(** ** Checks and worlds of the examples *)

(** A check for the examples: a shell command, three tries, a match. *)
Definition check_echo_no : Check :=
  mkCheck "" "" "echo no" "ok" 0 "" "" 3 0 0 false "".

(** A world in which every run of the command exits with status zero and
    prints [no], and nothing else goes wrong. *)
Definition env_prints_no : CycleEnv :=
  mkEnv (fun _ => mkExec "no" None) (fun _ _ => NetErr "unreachable")
        (mkTime 1700000000000000000 "2023-11-14T22:13:20Z") None (mkExec "" None).

(** A shell check whose command fails and whose match does not compile,
    and a world in which every run exits with status 1. *)
Definition check_bad_match : Check :=
  mkCheck "" "" "false" "(" 0 "" "" 1 0 0 false "".
Definition env_exit_1 : CycleEnv :=
  mkEnv (fun _ => mkExec "" (Some "exit status 1")) (fun _ _ => NetErr "unreachable")
        (mkTime 1700000000000000000 "2023-11-14T22:13:20Z") None (mkExec "" None).

(** A world in which every run of the command exits with status zero. *)
Definition env_exit_0 : CycleEnv :=
  mkEnv (fun _ => mkExec "out" None) (fun _ _ => NetErr "unreachable")
        (mkTime 1700000000000000000 "2023-11-14T22:13:20Z") None (mkExec "" None).

(** A shell check whose configuration asks for a negative number of tries. *)
Definition check_negative_tries : Check :=
  mkCheck "" "" "true" "" 0 "" "" (-2) 0 0 false "".

(** A check that is up, with an alert command, whose command fails. *)
Definition check_alerting : Check :=
  mkCheck "db" "" "false" "" 0 "" "/bin/alert" 1 0 0 false "".

(** The same world, but for how the alert command fares. *)
Definition with_alert (res : ExecResult) (env : CycleEnv) : CycleEnv :=
  mkEnv (runs env) (webs env) (now env) (mail_start env) res.

Definition quoted (s : string) : string := dq +:+ s +:+ dq.

(** The body with a [name] member, as the scenario of the specification
    has it, and the body with the [shell] member. *)
Definition body_with_name : string :=
  "[{" +:+ quoted "name" +:+ ":" +:+ quoted "echo ok" +:+ ","
       +:+ quoted "failed" +:+ ":false}]".
Definition body_with_shell : string :=
  "[{" +:+ quoted "shell" +:+ ":" +:+ quoted "echo ok" +:+ ","
       +:+ quoted "failed" +:+ ":false}]".

(** The configuration of the scenario, and a world in which the command
    prints [ok] and exits with status zero. *)
Definition check_echo_ok : Check :=
  mkCheck "" "" "echo ok" "" 0 "" "" 0 0 0 false "".
Definition env_echo_ok : CycleEnv :=
  mkEnv (fun _ => mkExec ("ok" +:+ nl) None) (fun _ _ => NetErr "unreachable")
        (mkTime 1700000000000000000 "2023-11-14T22:13:20Z") None (mkExec "" None).
Definition time_0 : Time := mkTime 1699999999000000000 "2023-11-14T22:13:19Z".
Definition version_0 : ver := mkVer "3.2-alpha" "go1.4" "linux" "amd64".

(** The check of the scenario once its worker has set the defaults. *)
Definition check_echo_ok_started : Check :=
  mkCheck "" "" "echo ok" "" 0 "" "" 1 30 0 false "".

(** A configuration entry with neither a URL nor a command. *)
Definition check_neither : Check :=
  mkCheck "nothing" "" "" "" 0 "" "" 0 0 0 false "".

(** The globals of an example: one check that is down. *)
Definition mon_one_down : Mon :=
  mkMon [mkCheck "db" "" "false" "" 0 "" "" 1 30 0 true "2023-11-14T22:13:20Z"]
        (etag (mkTime 1700000000000000000 "2023-11-14T22:13:20Z"))
        (etag (mkTime 1699999999000000000 "2023-11-14T22:13:19Z"))
        (mkVer "3.2-alpha" "go1.4" "linux" "amd64") false.

(** ** Reading runs of cycles *)

(** The number of places at which a sequence of verdicts, read after the
    flag [b], changes. *)
Fixpoint changes (b : bool) (vs : list bool) : nat :=
  match vs with
  | [] => 0
  | v :: vs' => (if Bool.eqb b v then 0 else 1) + changes v vs'
  end.

(** The requests of a trace. *)
Fixpoint requests (tr : list Event) : list Request :=
  match tr with
  | [] => []
  | EvHTTP req :: tr' => req :: requests tr'
  | _ :: tr' => requests tr'
  end.

(** What the configuration says of a check: all but [Failed] and [Since]. *)
Definition definition_of (c : Check) : Check :=
  set_Since "" (set_Failed false c).

(** The mail of a transition, as [notify] writes it. *)
Definition mail_text (to subject body : string) : string :=
  "To: " +:+ to +:+ nl +:+ "Subject: " +:+ subject +:+ nl
  +:+ "X-Mailer: jsonmon" +:+ nl +:+ nl +:+ body +:+ nl +:+ "." +:+ nl.

(** The headers of an answer with a body, by key. *)
Definition json_headers (cache key : string) : option string :=
  if String.eqb key "Content-Type" then Some "application/json; charset=utf-8"
  else if String.eqb key "X-Content-Type-Options" then Some "nosniff"
  else if String.eqb key "Access-Control-Allow-Origin" then Some "*"
  else if String.eqb key "Cache-Control" then Some "no-cache"
  else if String.eqb key "ETag" then Some cache
  else if String.eqb key "Server" then Some "jsonmon"
  else None.

(** The fields of a check that no worker writes. *)
Definition identity_of (c : Check) : string * string * string * string * string * string * Z :=
  (Name c, Web c, Shell c, Match c, Notify c, Alert c, Sleep c).

(** ** The Web UI *)

(** The assets that go-bindata compiles into the program, as [Asset]
    finds them ([None]: its error), and the four globals that [main]
    fills from [AssetInfo], lines 72-75 and 140-143. *)
Record Assets := mkAssets {
  Asset      : string -> option string;
  modHTML    : string;
  modAngular : string;
  modJS      : string;
  modCSS     : string
}.

(** [http.NotFound] of net/http. *)
Definition NotFound (w : ResponseWriter) : ResponseWriter :=
  let w := Header_Set "Content-Type" "text/plain; charset=utf-8" w in
  let w := Header_Set "X-Content-Type-Options" "nosniff" w in
  let w := WriteHeader 404 w in
  Write ("404 page not found" +:+ nl) w.

(** [func displayUI], lines 450-461; the error of [Asset] is dropped and
    its data is then empty. *)
Definition displayUI (a : Assets) (w : ResponseWriter) (r : HttpRequest)
    (mime name modified : string) : ResponseWriter :=
  if String.eqb (Header_Get (ReqHeader r) "If-Modified-Since") modified then
    WriteHeader 304 w
  else
    let w := Header_Set "X-Content-Type-Options" "nosniff" w in
    let w := Header_Set "Last-Modified" modified w in
    let w := Header_Set "Content-Type" mime w in
    Write (default "" (Asset a name)) w.

(** [func getUI], lines 432-447; [path] is [r.URL.Path]. *)
Definition getUI (a : Assets) (w : ResponseWriter) (path : string) (r : HttpRequest)
  : ResponseWriter :=
  let w := Header_Set "Server" "jsonmon" w in
  if String.eqb path "/" then
    displayUI a w r "text/html" "index.html" (modHTML a)
  else if String.eqb path "/angular.min.js" then
    displayUI a w r "application/javascript" "angular.min.js" (modAngular a)
  else if String.eqb path "/app.js" then
    displayUI a w r "application/javascript" "app.js" (modJS a)
  else if String.eqb path "/main.css" then
    displayUI a w r "text/css" "main.css" (modCSS a)
  else
    NotFound w.

(** The asset, the content type and the modification time of a path of
    the Web UI. *)
Definition ui_asset (a : Assets) (path : string) : option (string * string * string) :=
  if String.eqb path "/" then Some ("index.html", "text/html", modHTML a)
  else if String.eqb path "/angular.min.js"
  then Some ("angular.min.js", "application/javascript", modAngular a)
  else if String.eqb path "/app.js" then Some ("app.js", "application/javascript", modJS a)
  else if String.eqb path "/main.css" then Some ("main.css", "text/css", modCSS a)
  else None.

(** ** Logging on Unix: [unix.go] *)

Module Unix.

(** [const ShellPath], line 13. *)
Definition ShellPath : string := "/bin/sh".

(** What [log] does: a line on the standard error, or a call of the
    syslog writer [logs]. *)
Inductive Output :=
| Stderr (s : string)
| Crit (m : string)
| Err (m : string)
| Warning (m : string)
| Notice (m : string)
| Debug (m : string).

(** [func log], lines 21-38; [syslogFlag] is a global that another file
    declares. *)
Definition log (syslogFlag : bool) (severity : Z) (message : string) : list Output :=
  if negb syslogFlag then
    [Stderr ("<" +:+ FormatInt severity +:+ ">" +:+ message +:+ nl)]
  else if (severity =? 2)%Z then [Crit message]
  else if (severity =? 3)%Z then [Err message]
  else if (severity =? 4)%Z then [Warning message]
  else if (severity =? 5)%Z then [Notice message]
  else if (severity =? 7)%Z then [Debug message]
  else [].

End Unix.

(** * Properties *)

(** ** Strings *)

Lemma append_cons (a : ascii) (s t : string) :
  String a s +:+ t = String a (s +:+ t).
Proof. reflexivity. Qed.

Lemma append_nil_l (t : string) : "" +:+ t = t.
Proof. reflexivity. Qed.

Lemma append_nil_r (s : string) : s +:+ "" = s.
Proof.
  induction s as [|a s IH]; [reflexivity|].
  rewrite append_cons. f_equal. exact IH.
Qed.

Lemma prefix_append (t s : string) : String.prefix t (t +:+ s) = true.
Proof.
  induction t as [|a t IH].
  - rewrite append_nil_l. now destruct s.
  - rewrite append_cons. simpl.
    destruct (ascii_dec a a); [assumption | congruence].
Qed.

Lemma contains_append (t pre post : string) :
  contains t (pre +:+ t +:+ post) = true.
Proof.
  induction pre as [|a pre IH].
  - rewrite append_nil_l. destruct (t +:+ post) as [|b u] eqn:E.
    + destruct t; [reflexivity | discriminate].
    + change (String.prefix t (String b u) || contains t u = true).
      rewrite <- E, prefix_append. reflexivity.
  - rewrite append_cons.
    change (String.prefix t (String a (pre +:+ t +:+ post))
            || contains t (pre +:+ t +:+ post) = true).
    rewrite IH. apply orb_true_r.
Qed.

Lemma contains_suffix (t pre : string) : contains t (pre +:+ t) = true.
Proof.
  rewrite <- (append_nil_r t) at 2. apply contains_append.
Qed.

Lemma nonempty_false (s : string) : nonempty s = false -> s = "".
Proof.
  unfold nonempty. destruct (String.eqb_spec s ""); [trivial | discriminate].
Qed.

Lemma nonempty_true (s : string) : nonempty s = true -> s <> "".
Proof.
  unfold nonempty. destruct (String.eqb_spec s ""); [discriminate | trivial].
Qed.

(** ** The traces of the tries hold probes and sleeps only *)

Lemma client_send_probes fuel srv : forall req via,
  Forall (fun e => is_probe e = true) (snd (client_send fuel srv req via)).
Proof.
  induction fuel as [|fuel IH]; intros req via; simpl;
    destruct (srv req); simpl; try (repeat constructor; fail);
    destruct (redirect _ _) as [nreq [e|]]; simpl; try (repeat constructor; fail).
  specialize (IH nreq (via ++ [req])).
  destruct (client_send fuel srv nreq (via ++ [req])) as [r tr]; cbn [fst snd] in *.
  constructor; [reflexivity | assumption].
Qed.

Section Quiet.
Context `{GoLib}.

Lemma fetch_probes srv url m code :
  Forall (fun e => is_probe e = true) (snd (fetch srv url m code)).
Proof.
  unfold fetch. destruct (NewRequest_err url); [constructor|].
  pose proof (client_send_probes 10 srv (mkRequest url (Some "jsonmon")) []) as Q.
  unfold client_Do. destruct (client_send _ _ _ _) as [[[e|st b]|] tr]; simpl in *;
    try assumption.
  destruct (negb _); assumption.
Qed.

Lemma web_tries_quiet url m code sleep web : forall left k acc,
  Forall (fun e => is_quiet e = true)
         (snd (web_tries left k url m code sleep web acc)).
Proof.
  induction left as [|left IH]; intros k acc; simpl; [constructor|].
  assert (Q : Forall (fun e => is_quiet e = true) (snd (fetch (web k) url m code))).
  { eapply List.Forall_impl; [|apply fetch_probes].
    intros e He. unfold is_quiet. now rewrite He. }
  destruct (fetch (web k) url m code) as [[e|] tr1]; simpl in *; [|assumption].
  specialize (IH (S k) (Some e)).
  destruct (web_tries left (S k) url m code sleep web (Some e)) as [res tr]; cbn [fst snd] in *.
  apply Forall_app; split; [assumption|].
  apply Forall_app; split; [|assumption].
  destruct left; repeat constructor.
Qed.

Lemma shell_tries_quiet cmd m sleep run : forall left k acc,
  Forall (fun e => is_quiet e = true)
         (snd (shell_tries left k cmd m sleep run acc)).
Proof.
  induction left as [|left IH]; intros k acc; simpl; [constructor|].
  destruct (err (run k)) as [e|]; simpl; [|repeat constructor].
  specialize (IH (S k) (out (run k), Some e)).
  destruct (shell_tries left (S k) cmd m sleep run (out (run k), Some e)) as [res tr].
  cbn [fst snd] in *. constructor; [reflexivity|].
  apply Forall_app; split; [|assumption].
  destruct left; repeat constructor.
Qed.

Lemma attempts_quiet is_web c sleep env :
  Forall (fun e => is_quiet e = true) (snd (attempts is_web c sleep env)).
Proof.
  unfold attempts. destruct is_web; [apply web_tries_quiet|].
  pose proof (shell_tries_quiet (Shell c) (Match c) sleep (runs env)
                (Z.to_nat (Tries c)) 0 ("", None)) as Q.
  destruct (shell_tries _ _ _ _ _ _ _) as [[o e] tr]. exact Q.
Qed.

End Quiet.

Lemma quiet_filter (f : Event -> bool) (tr : list Event) :
  (forall e, is_quiet e = true -> f e = false) ->
  Forall (fun e => is_quiet e = true) tr -> List.filter f tr = [].
Proof.
  intros Hf. induction 1 as [|e tr He _ IH]; simpl; [reflexivity|].
  now rewrite (Hf e He).
Qed.

(** ** A cycle, unfolded *)

Ltac prog :=
  unfold fixed, broken, log, notify, alert, when, bind, ret, emit, get_check,
    update, set_modified, state_of, trace_of in *.

Section Cycle.
Context `{GoLib}.

Lemma poll_eq is_web name sleep repeat env c tok :
  poll is_web name sleep repeat env (mkSt c tok) =
  (tt, state_of (process env name c (fst (attempts is_web c sleep env)) (mkSt c tok)),
   snd (attempts is_web c sleep env)
   ++ trace_of (process env name c (fst (attempts is_web c sleep env)) (mkSt c tok))
   ++ [EvSleep repeat]).
Proof.
  unfold poll, attempts, web, shell, process, bind, get_check, emit, state_of, trace_of.
  destruct is_web; simpl.
  - destruct (web_tries _ _ _ _ _ _ _ _) as [[e|] tr]; simpl.
    + destruct (when _ _ _) as [[[] st] tr2]; simpl. now rewrite <- app_assoc.
    + destruct (when _ _ _) as [[[] st] tr2]; simpl. now rewrite <- app_assoc.
  - destruct (shell_tries _ _ _ _ _ _ _) as [[o [e|]] tr]; simpl.
    + destruct (when _ _ _) as [[[] st] tr2]; simpl. now rewrite <- app_assoc.
    + destruct (when _ _ _) as [[[] st] tr2]; simpl. now rewrite <- app_assoc.
Qed.

Lemma fixed_state env name c tok :
  state_of (fixed env name (mkSt c tok))
  = mkSt (set_Since (RFC3339 (now env)) (set_Failed false c)) (etag (now env)).
Proof.
  prog; simpl.
  destruct (nonempty (Notify c)), (nonempty (Alert c)), (mail_start env),
    (err (alert_run env)); reflexivity.
Qed.

Lemma broken_state env name msg c tok :
  state_of (broken env name msg (mkSt c tok))
  = mkSt (set_Since (RFC3339 (now env)) (set_Failed true c)) (etag (now env)).
Proof.
  prog; simpl.
  destruct (nonempty (Notify c)), (nonempty (Alert c)), (mail_start env),
    (err (alert_run env)); reflexivity.
Qed.

(** The verdict and the flag agree: nothing is written, nothing is said. *)
Lemma process_steady env name c d tok :
  (match d with Some _ => true | None => false end) = Failed c ->
  process env name c d (mkSt c tok) = (tt, mkSt c tok, []).
Proof.
  unfold process, when. destruct d, (Failed c); simpl; intros E;
    try discriminate; reflexivity.
Qed.

(** They differ: flag, since and token are written together. *)
Lemma process_change env name c d tok :
  (match d with Some _ => true | None => false end) <> Failed c ->
  state_of (process env name c d (mkSt c tok))
  = mkSt (set_Since (RFC3339 (now env))
            (set_Failed (match d with Some _ => true | None => false end) c))
         (etag (now env)).
Proof.
  unfold process, when. destruct d, (Failed c) eqn:F; simpl; intros E;
    try congruence.
  - apply broken_state.
  - apply fixed_state.
Qed.

(** One log line at most, one mail at most, one alert at most. *)
Lemma process_counts env name c d tok :
  let tr := trace_of (process env name c d (mkSt c tok)) in
  (count is_log tr <= 1 /\ count is_alert tr <= 1
   /\ count (fun e => match e with EvMail _ => true | _ => false end) tr <= 1)%nat.
Proof.
  unfold process, when, count. prog.
  destruct d, (Failed c); simpl; try lia;
    destruct (nonempty (Notify c)), (nonempty (Alert c)), (mail_start env),
      (err (alert_run env)); simpl; lia.
Qed.

Lemma verdict_frame is_web c sleep env b s :
  verdict is_web (set_Since s (set_Failed b c)) sleep env = verdict is_web c sleep env.
Proof. reflexivity. Qed.

Lemma poll_steady is_web name sleep repeat env c tok :
  verdict is_web c sleep env = Failed c ->
  poll is_web name sleep repeat env (mkSt c tok)
  = (tt, mkSt c tok, snd (attempts is_web c sleep env) ++ [EvSleep repeat]).
Proof.
  intros E. rewrite poll_eq, process_steady by exact E. reflexivity.
Qed.

Lemma count_app f (a b : list Event) : count f (a ++ b) = (count f a + count f b)%nat.
Proof. unfold count. now rewrite List.filter_app, length_app. Qed.

Lemma count_quiet f (tr : list Event) :
  (forall e, is_quiet e = true -> f e = false) ->
  Forall (fun e => is_quiet e = true) tr -> count f tr = 0%nat.
Proof. intros Hf Q. unfold count. now rewrite (quiet_filter f tr Hf Q). Qed.

Lemma quiet_not_notification e : is_quiet e = true -> is_notification e = false.
Proof. now destruct e. Qed.
Lemma quiet_not_log e : is_quiet e = true -> is_log e = false.
Proof. now destruct e. Qed.
Lemma quiet_not_alert e : is_quiet e = true -> is_alert e = false.
Proof. now destruct e. Qed.

(** A run of cycles with one verdict, from a state in which the flag
    already shows that verdict: nothing is written and nothing is said. *)
Lemma polls_steady is_web name sleep repeat v : forall envs c tok,
  Forall (fun env => verdict is_web c sleep env = v) envs ->
  Failed c = v ->
  state_of (polls is_web name sleep repeat envs (mkSt c tok)) = mkSt c tok
  /\ count is_notification (trace_of (polls is_web name sleep repeat envs (mkSt c tok)))
     = 0%nat.
Proof.
  induction envs as [|env envs IH]; intros c tok Hall F.
  - split; reflexivity.
  - inversion Hall as [|? ? Hv Hrest]; subst.
    destruct (IH c tok Hrest eq_refl) as [IHs IHt].
    cbn [polls]. unfold bind.
    rewrite poll_steady by congruence.
    unfold state_of, trace_of in *.
    destruct (polls is_web name sleep repeat envs (mkSt c tok)) as [[[] st] tr].
    cbn [fst snd] in *. split; [assumption|].
    rewrite !count_app, IHt.
    rewrite (count_quiet _ _ quiet_not_notification (attempts_quiet is_web c sleep env)).
    reflexivity.
Qed.

End Cycle.

(** ** The tries of a cycle *)

Ltac count_solve :=
  unfold count in *; cbn [fst snd] in *; simpl;
  repeat (rewrite List.filter_app || rewrite length_app);
  simpl; lia.

Section Tries.
Context `{GoLib}.

Lemma fetch_no_sleep srv url m code :
  count is_sleep (snd (fetch srv url m code)) = 0%nat.
Proof.
  unfold count. pose proof (fetch_probes srv url m code) as P.
  induction P as [|e tr He _ IH]; simpl; [reflexivity|].
  destruct e; simpl in *; try discriminate; assumption.
Qed.

(** The web loop: when every fetch fails, it makes them all, sleeps
    between them and not after the last, and keeps the last error. *)
Lemma web_tries_all_fail url m code sleep web : forall left k acc,
  (forall j, (j < left)%nat -> fst (fetch (web (k + j)%nat) url m code) <> None) ->
  count is_sleep (snd (web_tries left k url m code sleep web acc)) = (left - 1)%nat
  /\ ((0 < left)%nat ->
      fst (web_tries left k url m code sleep web acc)
      = fst (fetch (web (k + left - 1)%nat) url m code)).
Proof.
  induction left as [|left IH]; intros k acc Hfail.
  - split; [reflexivity | lia].
  - cbn [web_tries].
    pose proof (Hfail 0%nat ltac:(lia)) as H0. rewrite Nat.add_0_r in H0.
    pose proof (fetch_no_sleep (web k) url m code) as S0.
    destruct (fetch (web k) url m code) as [[e|] tr1] eqn:F; [|now elim H0].
    destruct (IH (S k) (Some e)) as [IHc IHr].
    { intros j Hj. replace (S k + j)%nat with (k + S j)%nat by lia.
      apply Hfail. lia. }
    destruct left as [|left].
    + cbn [web_tries fst snd app] in *. rewrite app_nil_r.
      split; [assumption|]. intros _.
      replace (k + 1 - 1)%nat with k by lia. now rewrite F.
    + destruct (web_tries (S left) (S k) url m code sleep web (Some e)) as [res tr].
      cbn [fst snd] in *. split.
      * count_solve.
      * intros _.
        replace (k + S (S left) - 1)%nat with (S k + S left - 1)%nat by lia.
        apply IHr. lia.
Qed.

(** The web loop stops at the first fetch that succeeds, having slept
    once before each fetch but the first. *)
Lemma web_tries_first_success url m code sleep web : forall left n k acc,
  (n < left)%nat ->
  (forall j, (j < n)%nat -> fst (fetch (web (k + j)%nat) url m code) <> None) ->
  fst (fetch (web (k + n)%nat) url m code) = None ->
  fst (web_tries left k url m code sleep web acc) = None
  /\ count is_sleep (snd (web_tries left k url m code sleep web acc)) = n.
Proof.
  induction left as [|left IH]; intros n k acc Hn Hfail Hok; [lia|].
  cbn [web_tries].
  pose proof (fetch_no_sleep (web k) url m code) as S0.
  destruct n as [|n].
  - rewrite Nat.add_0_r in Hok.
    destruct (fetch (web k) url m code) as [[e|] tr1]; simpl in *; [discriminate|].
    split; [reflexivity | assumption].
  - pose proof (Hfail 0%nat ltac:(lia)) as H0. rewrite Nat.add_0_r in H0.
    destruct (fetch (web k) url m code) as [[e|] tr1]; [|now elim H0].
    destruct (IH n (S k) (Some e)) as [IHr IHc]; [lia| | |].
    { intros j Hj. replace (S k + j)%nat with (k + S j)%nat by lia.
      apply Hfail. lia. }
    { replace (S k + n)%nat with (k + S n)%nat by lia. exact Hok. }
    destruct (web_tries left (S k) url m code sleep web (Some e)) as [res tr].
    cbn [fst snd] in *. split; [assumption|].
    destruct left; [lia|]. count_solve.
Qed.

(** The shell loop: when every run exits with an error, it makes them
    all, sleeps between them and not after the last, and keeps the output
    and the error of the last. *)
Lemma shell_tries_all_fail cmd m sleep run : forall left k acc,
  (forall j, (j < left)%nat -> err (run (k + j)%nat) <> None) ->
  let r := shell_tries left k cmd m sleep run acc in
  count is_sleep (snd r) = (left - 1)%nat
  /\ count is_probe (snd r) = left
  /\ ((0 < left)%nat ->
      fst r = (out (run (k + left - 1)%nat), err (run (k + left - 1)%nat))).
Proof.
  induction left as [|left IH]; intros k acc Hfail.
  - repeat split; try reflexivity. lia.
  - cbn [shell_tries].
    pose proof (Hfail 0%nat ltac:(lia)) as H0. rewrite Nat.add_0_r in H0.
    destruct (err (run k)) as [e|] eqn:E; [|now elim H0].
    destruct (IH (S k) (out (run k), Some e)) as (IHs & IHp & IHr).
    { intros j Hj. replace (S k + j)%nat with (k + S j)%nat by lia.
      apply Hfail. lia. }
    destruct left as [|left].
    + cbn [shell_tries fst snd app] in *. repeat split; try reflexivity. intros _.
      replace (k + 1 - 1)%nat with k by lia. now rewrite E.
    + destruct (shell_tries (S left) (S k) cmd m sleep run (out (run k), Some e))
        as [res tr].
      cbn [fst snd] in *.
      split; [count_solve|]. split; [count_solve|]. intros _.
      replace (k + S (S left) - 1)%nat with (S k + S left - 1)%nat by lia.
      apply IHr. lia.
Qed.

(** The shell loop stops at the first run that exits with status zero;
    what that run then yields is up to the match. *)
Lemma shell_tries_first_exit_zero cmd m sleep run : forall left n k acc,
  (n < left)%nat ->
  (forall j, (j < n)%nat -> err (run (k + j)%nat) <> None) ->
  err (run (k + n)%nat) = None ->
  let r := shell_tries left k cmd m sleep run acc in
  fst r = (out (run (k + n)%nat), match_output m (out (run (k + n)%nat)))
  /\ count is_sleep (snd r) = n
  /\ count is_probe (snd r) = S n.
Proof.
  induction left as [|left IH]; intros n k acc Hn Hfail Hok; [lia|].
  cbn [shell_tries].
  destruct n as [|n].
  - rewrite Nat.add_0_r in *. rewrite Hok. repeat split; reflexivity.
  - pose proof (Hfail 0%nat ltac:(lia)) as H0. rewrite Nat.add_0_r in H0.
    destruct (err (run k)) as [e|] eqn:E; [|now elim H0].
    destruct (IH n (S k) (out (run k), Some e)) as (IHr & IHs & IHp); [lia| | |].
    { intros j Hj. replace (S k + j)%nat with (k + S j)%nat by lia.
      apply Hfail. lia. }
    { replace (S k + n)%nat with (k + S n)%nat by lia. exact Hok. }
    destruct (shell_tries left (S k) cmd m sleep run (out (run k), Some e)) as [res tr].
    cbn [fst snd] in *.
    replace (k + S n)%nat with (S k + n)%nat by lia.
    split; [assumption|].
    destruct left; [lia|]. split; count_solve.
Qed.

End Tries.

(** ** C1: the retry policy *)

(** C1, where the code departs from it.  A shell check that allows one try
    or more, whose command exits with status zero and whose output does
    not match: the cycle makes this one run and no other, sleeps not once,
    and fails with the diagnostic of this first run.  The retry policy has
    three runs and two sleeps for three tries; the web loop, which retries
    a failed match ([web_tries_all_fail]), follows it, and so does the
    shell loop for runs that exit with an error ([shell_tries_all_fail]). *)
Theorem C1_shell_match_failure_is_not_retried `{GoLib} :
  forall (c : Check) (sleep : Z) (env : CycleEnv) (regex : Regexp),
    (1 <= Tries c)%Z ->
    nonempty (Match c) = true ->
    regexp_Compile (Match c) = inl regex ->
    err (runs env 0) = None ->
    regexp_Match regex (out (runs env 0)) = false ->
    verdict false c sleep env = true
    /\ count is_probe (snd (attempts false c sleep env)) = 1%nat
    /\ count is_sleep (snd (attempts false c sleep env)) = 0%nat
    /\ fst (attempts false c sleep env)
       = Some (out (runs env 0)
               +:+ ("Expected:" +:+ nl +:+ Match c +:+ nl +:+ nl +:+ "Got:" +:+ nl
                    +:+ out (runs env 0))).
Proof.
  intros c sleep env regex Ht Hm Hc He Hn.
  assert (A : attempts false c sleep env
              = (Some (out (runs env 0)
                       +:+ ("Expected:" +:+ nl +:+ Match c +:+ nl +:+ nl +:+ "Got:" +:+ nl
                            +:+ out (runs env 0))),
                 [EvShell (Shell c)])).
  { unfold attempts.
    destruct (Z.to_nat (Tries c)) as [|left] eqn:T; [lia|].
    cbn [shell_tries]. rewrite He.
    unfold match_output. rewrite Hm, Hc, Hn. reflexivity. }
  unfold verdict. rewrite A. repeat split; reflexivity.
Qed.

Lemma C1_shell_match_failure_witness :
  count is_probe (snd (@attempts example_lib false check_echo_no 0 env_prints_no)) = 1%nat
  /\ count is_sleep (snd (@attempts example_lib false check_echo_no 0 env_prints_no)) = 0%nat.
Proof.
  destruct (@C1_shell_match_failure_is_not_retried example_lib
              check_echo_no 0%Z env_prints_no "ok")
    as (_ & Hp & Hs & _).
  - simpl. lia.
  - reflexivity.
  - reflexivity.
  - reflexivity.
  - reflexivity.
  - split; assumption.
Defined.

(** ** C2: steady cycles *)

(** C2.  A cycle whose verdict equals the flag writes nothing and says
    nothing; any cycle either leaves flag, since and token as they are or,
    its verdict differing from the flag, writes the three together; cycles
    that all succeed on a check that is up leave the state alone; and in a
    run of cycles with one verdict only the first can write or notify:
    the cycles after it leave the state as the first left it and say
    nothing, and the whole run has one log line, one mail and one alert at
    most. *)
Theorem C2_equal_verdicts_change_nothing `{GoLib} :
  forall (is_web : bool) (name : string) (sleep repeat : Z),
    (forall c t env,
        verdict is_web c sleep env = Failed c ->
        state_of (poll is_web name sleep repeat env (mkSt c t)) = mkSt c t
        /\ count is_notification
             (trace_of (poll is_web name sleep repeat env (mkSt c t))) = 0%nat)
    /\ (forall c t env,
           let st' := state_of (poll is_web name sleep repeat env (mkSt c t)) in
           st' = mkSt c t
           \/ (verdict is_web c sleep env <> Failed c
               /\ st' = mkSt (set_Since (RFC3339 (now env))
                                (set_Failed (verdict is_web c sleep env) c))
                             (etag (now env))))
    /\ (forall c t envs,
           Failed c = false ->
           Forall (fun env => verdict is_web c sleep env = false) envs ->
           let r := polls is_web name sleep repeat envs (mkSt c t) in
           state_of r = mkSt c t /\ Since (chk (state_of r)) = Since c
           /\ tok (state_of r) = t
           /\ count is_notification (trace_of r) = 0%nat)
    /\ (forall c t v env envs,
           Forall (fun env => verdict is_web c sleep env = v) (env :: envs) ->
           let r1 := poll is_web name sleep repeat env (mkSt c t) in
           let r := polls is_web name sleep repeat envs (state_of r1) in
           state_of r = state_of r1
           /\ count is_notification (trace_of r) = 0%nat
           /\ (count is_log
                 (trace_of (polls is_web name sleep repeat (env :: envs) (mkSt c t)))
               <= 1)%nat
           /\ (count is_alert
                 (trace_of (polls is_web name sleep repeat (env :: envs) (mkSt c t)))
               <= 1)%nat).
Proof.
  intros is_web name sleep repeat.
  assert (Hone : forall c tok0 env,
    state_of (poll is_web name sleep repeat env (mkSt c tok0)) = mkSt c tok0
    \/ (verdict is_web c sleep env <> Failed c
        /\ state_of (poll is_web name sleep repeat env (mkSt c tok0))
           = mkSt (set_Since (RFC3339 (now env))
                     (set_Failed (verdict is_web c sleep env) c))
                  (etag (now env)))).
  { intros c tok0 env.
    destruct (bool_decide (verdict is_web c sleep env = Failed c)) eqn:D.
    - apply bool_decide_eq_true in D. left.
      rewrite poll_steady by exact D. reflexivity.
    - apply bool_decide_eq_false in D. right. split; [exact D|].
      rewrite poll_eq. unfold state_of at 1. cbn [fst snd].
      apply process_change. exact D. }
  split; [|split; [|split]].
  - intros c tok0 env E. rewrite poll_steady by exact E.
    split; [reflexivity|]. unfold trace_of. cbn [snd].
    rewrite count_app.
    rewrite (count_quiet _ _ quiet_not_notification (attempts_quiet is_web c sleep env)).
    reflexivity.
  - intros c tok0 env. apply Hone.
  - intros c tok0 envs F Hall r.
    destruct (polls_steady is_web name sleep repeat false envs c tok0 Hall F)
      as [Hs Ht].
    subst r. rewrite Hs. cbn [chk tok]. repeat split; assumption.
  - intros c tok0 v env envs Hall r1 r.
    inversion Hall as [|? ? Hv Hrest]; subst.
    (* after the first cycle the flag shows the verdict *)
    assert (Hflag : exists c1 tok1,
               state_of r1 = mkSt c1 tok1
               /\ Failed c1 = verdict is_web c sleep env
               /\ (forall env', verdict is_web c1 sleep env' = verdict is_web c sleep env')).
    { subst r1.
      destruct (bool_decide (verdict is_web c sleep env = Failed c)) eqn:B.
      - apply bool_decide_eq_true in B. exists c, tok0.
        rewrite poll_steady by exact B.
        split; [reflexivity|]. split; [congruence | reflexivity].
      - apply bool_decide_eq_false in B.
        exists (set_Since (RFC3339 (now env))
                  (set_Failed (verdict is_web c sleep env) c)), (etag (now env)).
        split; [|split; [reflexivity|]].
        + rewrite poll_eq. unfold state_of at 1. cbn [fst snd].
          apply process_change. exact B.
        + intros env'. apply verdict_frame. }
    destruct Hflag as (c1 & tok1 & E1 & F1 & V1).
    assert (Hall1 : Forall (fun env' => verdict is_web c1 sleep env'
                                       = verdict is_web c sleep env) envs).
    { eapply List.Forall_impl; [|exact Hrest].
      intros env' Hv'. cbn beta in Hv'. rewrite V1. exact Hv'. }
    destruct (polls_steady is_web name sleep repeat _ envs c1 tok1 Hall1 F1)
      as [Hs Ht].
    subst r. rewrite E1. split; [exact Hs|]. split; [exact Ht|].
    (* counting over the whole run *)
    cbn [polls]. unfold bind.
    generalize E1. subst r1. intros E1'.
    rewrite poll_eq in *. unfold state_of at 1 in E1'. cbn [fst snd] in E1'.
    rewrite E1'.
    pose proof (process_counts env name c (fst (attempts is_web c sleep env)) tok0)
      as (Pl & Pa & _).
    unfold state_of, trace_of in *.
    destruct (polls is_web name sleep repeat envs (mkSt c1 tok1)) as [[[] st2] tr2].
    cbn [fst snd] in *.
    assert (Ql : count is_log tr2 = 0%nat /\ count is_alert tr2 = 0%nat).
    { clear - Ht. unfold count in *.
      induction tr2 as [|e tr2 IH]; [split; reflexivity|].
      destruct e; simpl in *; try discriminate; apply IH; assumption. }
    destruct Ql as [Ql Qa].
    rewrite !count_app.
    rewrite (count_quiet _ _ quiet_not_log (attempts_quiet is_web c sleep env)).
    rewrite (count_quiet _ _ quiet_not_alert (attempts_quiet is_web c sleep env)).
    rewrite Ql, Qa. unfold count at 2 4. simpl. lia.
Qed.

(** ** The process: what a step of one worker leaves alone *)

Lemma lookup_map {A B} (f : A -> B) (l : list A) : forall i,
  map f l !! i = f <$> (l !! i).
Proof.
  induction l as [|a l IH]; intros [|i]; simpl; try reflexivity. apply IH.
Qed.

Lemma probes_of_app i (a b : list (nat * Event)) :
  probes_of i (a ++ b) = probes_of i a ++ probes_of i b.
Proof. unfold probes_of. apply List.filter_app. Qed.

Lemma probes_of_other i j (tr : list Event) :
  j <> i -> probes_of i (map (pair j) tr) = [].
Proof.
  intros D. unfold probes_of. induction tr as [|e tr IH]; simpl; [reflexivity|].
  destruct (Nat.eqb_spec j i); [contradiction | exact IH].
Qed.

Lemma probes_of_none i j (tr : list Event) :
  count is_probe tr = 0%nat -> probes_of i (map (pair j) tr) = [].
Proof.
  unfold probes_of, count. induction tr as [|e tr IH]; simpl; [reflexivity|].
  destruct (is_probe e); simpl; [discriminate|].
  rewrite andb_false_r. exact IH.
Qed.

(** An invalid check: the worker writes the flag and returns. *)
Lemma worker_start_invalid c t :
  invalid c = true ->
  exists msg, worker_start (mkSt c t) = (Returned, mkSt (set_Failed true c) t, [EvStderr msg]).
Proof.
  unfold invalid, worker_start. prog. cbn [chk].
  destruct (nonempty (Shell c)), (nonempty (Web c)); simpl; intros E;
    try discriminate; eexists; reflexivity.
Qed.

Section Process.
Context `{GoLib}.

Lemma on_check_spec {A} i (p : Prog A) s c :
  checks (globals s) !! i = Some c ->
  on_check i p s
  = Some (fst (fst (p (mkSt c (modified (globals s))))),
          mkSys (mkMon (<[i := chk (state_of (p (mkSt c (modified (globals s)))))]>
                          (checks (globals s)))
                       (tok (state_of (p (mkSt c (modified (globals s))))))
                       (started (globals s)) (version (globals s))
                       (checks_nil (globals s)))
                (phases s)
                (journal s ++ map (pair i) (trace_of (p (mkSt c (modified (globals s))))))).
Proof.
  intros L. unfold on_check, state_of, trace_of. rewrite L.
  destruct (p _) as [[a st] tr]. reflexivity.
Qed.

Lemma on_check_none {A} i (p : Prog A) s :
  checks (globals s) !! i = None -> on_check i p s = None.
Proof. intros L. unfold on_check. now rewrite L. Qed.

(** A step of worker [j] leaves the check, the phase and the probes of
    another worker [i] as they are. *)
Lemma step_other i j env s :
  j <> i ->
  checks (globals (step j env s)) !! i = checks (globals s) !! i
  /\ phases (step j env s) !! i = phases s !! i
  /\ probes_of i (journal (step j env s)) = probes_of i (journal s).
Proof.
  intros D. unfold step.
  destruct (phases s !! j) as [[| w n sl r |]|] eqn:P; try (repeat split; reflexivity).
  - destruct (checks (globals s) !! j) as [cj|] eqn:L.
    + rewrite (on_check_spec j worker_start s cj L). cbn [globals phases journal checks].
      rewrite !list_lookup_insert_ne by exact D.
      rewrite probes_of_app, probes_of_other by exact D.
      rewrite app_nil_r. repeat split; reflexivity.
    + rewrite on_check_none by exact L. repeat split; reflexivity.
  - destruct (checks (globals s) !! j) as [cj|] eqn:L.
    + rewrite (on_check_spec j _ s cj L). cbn [globals phases journal checks].
      rewrite !list_lookup_insert_ne by exact D.
      rewrite probes_of_app, probes_of_other by exact D.
      rewrite app_nil_r. repeat split; reflexivity.
    + rewrite on_check_none by exact L. repeat split; reflexivity.
Qed.

(** A worker that has returned takes no step. *)
Lemma step_returned i env s :
  phases s !! i = Some Returned -> step i env s = s.
Proof. intros P. unfold step. now rewrite P. Qed.

Lemma run_returned schedule : forall s i c,
  checks (globals s) !! i = Some c ->
  phases s !! i = Some Returned ->
  checks (globals (run schedule s)) !! i = Some c
  /\ phases (run schedule s) !! i = Some Returned
  /\ probes_of i (journal (run schedule s)) = probes_of i (journal s).
Proof.
  induction schedule as [|[j env] schedule IH]; intros s i c L P.
  - repeat split; assumption.
  - cbn [run]. destruct (Nat.eq_dec j i) as [->|D].
    + rewrite step_returned by exact P. apply IH; assumption.
    + destruct (step_other i j env s D) as (Lc & Lp & Lj).
      destruct (IH (step j env s) i c) as (Rc & Rp & Rj).
      * now rewrite Lc.
      * now rewrite Lp.
      * repeat split; try assumption. now rewrite Rj.
Qed.

(** The step that spawns the worker of an invalid check. *)
Lemma step_spawn_invalid i env s c :
  checks (globals s) !! i = Some c ->
  invalid c = true ->
  phases s !! i = Some Spawned ->
  exists msg,
    step i env s
    = mkSys (mkMon (<[i := set_Failed true c]> (checks (globals s)))
                   (modified (globals s)) (started (globals s)) (version (globals s))
                   (checks_nil (globals s)))
            (<[i := Returned]> (phases s))
            (journal s ++ [(i, EvStderr msg)]).
Proof.
  intros L V P. unfold step. rewrite P.
  rewrite (on_check_spec i worker_start s c L).
  destruct (worker_start_invalid c (modified (globals s)) V) as [msg E].
  rewrite E. exists msg. reflexivity.
Qed.

End Process.

(** ** C3: an invalid check is never polled *)

(** C3.  The worker of a check with both or neither of [Web] and [Shell]
    sets the flag and returns, without a probe; whatever the scheduler
    lets the workers do afterwards, the check stays failed, its worker
    stays returned and the journal gains no probe of it, while a polling
    worker of another check still makes its cycle when its turn comes.
    The worker itself, over any number of cycles, makes no probe. *)
Theorem C3_invalid_check_is_never_polled `{GoLib} :
  forall (s : Sys) (i : nat) (c : Check) (env : CycleEnv),
    checks (globals s) !! i = Some c ->
    invalid c = true ->
    phases s !! i = Some Spawned ->
    let s1 := step i env s in
    checks (globals s1) !! i = Some (set_Failed true c)
    /\ phases s1 !! i = Some Returned
    /\ probes_of i (journal s1) = probes_of i (journal s)
    /\ (forall envs t,
           Failed (chk (state_of (worker envs (mkSt c t)))) = true
           /\ count is_probe (trace_of (worker envs (mkSt c t))) = 0%nat)
    /\ forall schedule,
         let s2 := run schedule s1 in
         checks (globals s2) !! i = Some (set_Failed true c)
         /\ phases s2 !! i = Some Returned
         /\ probes_of i (journal s2) = probes_of i (journal s)
         /\ forall j cj is_web name sleep repeat env',
              j <> i ->
              checks (globals s2) !! j = Some cj ->
              phases s2 !! j = Some (Polling is_web name sleep repeat) ->
              let r := poll is_web name sleep repeat env'
                            (mkSt cj (modified (globals s2))) in
              checks (globals (step j env' s2)) !! j = Some (chk (state_of r))
              /\ journal (step j env' s2) = journal s2 ++ map (pair j) (trace_of r)
              /\ checks (globals (step j env' s2)) !! i = Some (set_Failed true c).
Proof.
  intros s i c env L V P s1.
  destruct (step_spawn_invalid i env s c L V P) as [msg E].
  assert (Hi : (i < length (checks (globals s)))%nat) by (eapply lookup_lt_Some; eauto).
  assert (Hp : (i < length (phases s))%nat) by (eapply lookup_lt_Some; eauto).
  assert (L1 : checks (globals s1) !! i = Some (set_Failed true c)).
  { subst s1. rewrite E. cbn [globals checks]. now apply list_lookup_insert_eq. }
  assert (P1 : phases s1 !! i = Some Returned).
  { subst s1. rewrite E. cbn [phases]. now apply list_lookup_insert_eq. }
  assert (J1 : probes_of i (journal s1) = probes_of i (journal s)).
  { subst s1. rewrite E. cbn [journal]. rewrite probes_of_app.
    unfold probes_of at 2. simpl. rewrite andb_false_r. apply app_nil_r. }
  split; [exact L1|]. split; [exact P1|]. split; [exact J1|]. split.
  - intros envs t. unfold worker, bind.
    destruct (worker_start_invalid c t V) as [m Em]. rewrite Em.
    split; reflexivity.
  - intros schedule s2.
    destruct (run_returned schedule s1 i _ L1 P1) as (L2 & P2 & J2).
    fold s2 in L2, P2, J2.
    split; [exact L2|]. split; [exact P2|]. split; [congruence|].
    intros j cj is_web name sleep repeat env' D Lj Pj r.
    destruct (step_other i j env' s2 D) as (Lo & _ & _).
    split; [|split].
    + unfold step. rewrite Pj, (on_check_spec j _ s2 cj Lj). cbn [globals checks].
      apply list_lookup_insert_eq. eapply lookup_lt_Some; eauto.
    + unfold step. rewrite Pj, (on_check_spec j _ s2 cj Lj). reflexivity.
    + now rewrite Lo.
Qed.

(** ** C4: the conditional GET of the status API *)

Lemma getChecks_cached g r :
  Header_Get (ReqHeader r) "If-None-Match" = modified g ->
  status (getChecks g new_response r) = Some 304%Z
  /\ body (getChecks g new_response r) = "".
Proof.
  intros E. unfold getChecks, displayJSON.
  rewrite E, String.eqb_refl. split; reflexivity.
Qed.

Lemma getChecks_fresh g r :
  Header_Get (ReqHeader r) "If-None-Match" <> modified g ->
  status (getChecks g new_response r) = Some 200%Z
  /\ body (getChecks g new_response r)
     = (if checks_nil g then "null"
        else "[" +:+ String.concat "," (map marshal_Check (checks g)) +:+ "]")
  /\ Header (getChecks g new_response r) !! "ETag" = Some (modified g).
Proof.
  intros D. unfold getChecks, displayJSON.
  destruct (String.eqb_spec (Header_Get (ReqHeader r) "If-None-Match") (modified g))
    as [E|_]; [contradiction|].
  split; [reflexivity|]. split; [destruct (checks_nil g); reflexivity|].
  cbv [Write WriteHeader Header_Set Header status body new_response].
  do 4 (rewrite lookup_insert_ne by discriminate).
  apply lookup_insert_eq.
Qed.

(** C4 as it was stated fails: after a configuration whose document is
    empty the slice of the checks is nil, and the body that [/status]
    serves is [null], which is no JSON array. *)
Lemma C4_empty_configuration_serves_null :
  body (status_of (main_empty time_0 version_0) (mkHttpRequest ∅)) = "null"
  /\ status (status_of (main_empty time_0 version_0) (mkHttpRequest ∅)) = Some 200%Z
  /\ ~ (forall (g : Mon) (r : HttpRequest),
          Header_Get (ReqHeader r) "If-None-Match" <> modified g ->
          body (getChecks g new_response r)
          = "[" +:+ String.concat "," (map marshal_Check (checks g)) +:+ "]").
Proof.
  split; [vm_compute; reflexivity|]. split; [vm_compute; reflexivity|].
  intros A.
  specialize (A (globals (main_empty time_0 version_0)) (mkHttpRequest ∅)).
  assert (D : Header_Get (ReqHeader (mkHttpRequest ∅)) "If-None-Match"
              <> modified (globals (main_empty time_0 version_0))).
  { vm_compute. discriminate. }
  specialize (A D). vm_compute in A. discriminate A.
Qed.

(** C4, as the code has it.  [GET /status]: when the first
    [If-None-Match] value of the request is the [modified] token,
    character for character, the answer is 304 without a body; in every
    other case it is 200 with the token as [ETag] and, as body, the checks
    marshalled as a JSON array, or [null] when the slice of the checks is
    nil. *)
Theorem C4_status_conditional_get :
  forall (g : Mon) (r : HttpRequest),
    let w := getChecks g new_response r in
    (Header_Get (ReqHeader r) "If-None-Match" = modified g ->
     status w = Some 304%Z /\ body w = "")
    /\ (Header_Get (ReqHeader r) "If-None-Match" <> modified g ->
        status w = Some 200%Z
        /\ body w
           = (if checks_nil g then "null"
              else "[" +:+ String.concat "," (map marshal_Check (checks g)) +:+ "]")
        /\ Header w !! "ETag" = Some (modified g)).
Proof.
  intros g r w. subst w. split.
  - intros E. now apply getChecks_cached.
  - intros D. now apply getChecks_fresh.
Qed.

Lemma C4_status_conditional_get_witness :
  status (getChecks mon_one_down new_response
            (mkHttpRequest (<["If-None-Match" := [modified mon_one_down]]> ∅)))
  = Some 304%Z
  /\ status (getChecks mon_one_down new_response
               (mkHttpRequest (<["If-None-Match" := [started mon_one_down]]> ∅)))
     = Some 200%Z.
Proof.
  split.
  - destruct (C4_status_conditional_get mon_one_down
                (mkHttpRequest (<["If-None-Match" := [modified mon_one_down]]> ∅)))
      as [Hc _].
    apply Hc. vm_compute. reflexivity.
  - destruct (C4_status_conditional_get mon_one_down
                (mkHttpRequest (<["If-None-Match" := [started mon_one_down]]> ∅)))
      as [_ Hf].
    apply Hf. vm_compute. discriminate.
Defined.

(** ** What the configuration leaves of a check *)

Lemma load_lookup config i c :
  load config !! i = Some c -> Failed c = false /\ Since c = "".
Proof.
  unfold load. rewrite lookup_map.
  destruct (config !! i) as [c0|]; simpl; intros E; inversion E; subst.
  split; reflexivity.
Qed.

(** ** C6: the defaults of a worker *)

Lemma worker_start_valid c t :
  invalid c = false ->
  let c1 := if (Repeat c =? 0)%Z then set_Repeat 30 c else c in
  let c2 := if (Tries c =? 0)%Z then set_Tries 1 c1 else c1 in
  let c3 := if nonempty (Web c) && (Return c =? 0)%Z then set_Return 200 c2 else c2 in
  worker_start (mkSt c t)
  = (Polling (nonempty (Web c))
             (if nonempty (Name c) then Name c
              else if nonempty (Web c) then Web c else Shell c)
             (seconds (Sleep c)) (seconds (Repeat c2)),
     mkSt c3 t, []).
Proof.
  unfold invalid, worker_start. prog. cbn [chk tok].
  destruct (nonempty (Shell c)) eqn:S, (nonempty (Web c)) eqn:W; simpl; intros E;
    try discriminate;
    destruct (Repeat c =? 0)%Z eqn:R, (Tries c =? 0)%Z eqn:T; simpl;
    rewrite ?W, ?S; simpl;
    try (destruct (Return c =? 0)%Z eqn:Rt; simpl);
    destruct (nonempty (Name c)); reflexivity.
Qed.

(** C6, as the code has it.  For a check with exactly one of [Web] and
    [Shell]: tries that are not set (zero) become 1 and any other value is
    kept, so the tries are never zero, and are at least 1 when the
    configured value is not negative; an interval that is not set becomes
    30 seconds; and for a web check an expected status that is not set
    becomes 200. *)
Theorem C6_defaults_of_a_worker :
  forall (c : Check) (t : string),
    invalid c = false ->
    let r := worker_start (mkSt c t) in
    let c' := chk (state_of r) in
    Tries c' = (if (Tries c =? 0)%Z then 1%Z else Tries c)
    /\ Tries c' <> 0%Z
    /\ ((0 <= Tries c)%Z -> (1 <= Tries c')%Z)
    /\ Repeat c' = (if (Repeat c =? 0)%Z then 30%Z else Repeat c)
    /\ (exists name,
           fst (fst r) = Polling (nonempty (Web c)) name (seconds (Sleep c))
                                 (seconds (Repeat c')))
    /\ (Repeat c = 0%Z -> seconds (Repeat c') = (30 * 1000000000)%Z)
    /\ (nonempty (Web c) = true ->
        Return c' = (if (Return c =? 0)%Z then 200%Z else Return c)).
Proof.
  intros c t V r c'. subst c' r.
  rewrite (worker_start_valid c t V). unfold state_of. cbn [fst snd chk].
  destruct (Repeat c =? 0)%Z eqn:R, (Tries c =? 0)%Z eqn:T,
    (nonempty (Web c)) eqn:W, (Return c =? 0)%Z eqn:Rt; cbn [andb];
    cbn [Tries Repeat Return set_Repeat set_Tries set_Return];
    repeat split; try lia; try (eexists; reflexivity); try discriminate;
    try (intros _; reflexivity); try (intros; lia).
Qed.

(** C6 as it was stated fails: a negative number of tries is kept; and a
    check that is not polled, having neither a URL nor a command, keeps
    the zeros of its configuration. *)
Lemma C6_negative_tries_are_kept :
  invalid check_negative_tries = false
  /\ Tries (chk (state_of (worker_start (mkSt check_negative_tries "")))) = (-2)%Z
  /\ ~ (forall c t, invalid c = false ->
                    (1 <= Tries (chk (state_of (worker_start (mkSt c t)))))%Z)
  /\ Tries (chk (state_of (worker_start (mkSt check_neither "")))) = 0%Z
  /\ Repeat (chk (state_of (worker_start (mkSt check_neither "")))) = 0%Z.
Proof.
  split; [reflexivity|]. split; [reflexivity|]. split.
  - intros A. specialize (A check_negative_tries "" eq_refl).
    vm_compute in A. apply A. reflexivity.
  - split; reflexivity.
Qed.

Lemma C6_defaults_witness :
  Tries (chk (state_of (worker_start (mkSt check_echo_no "")))) = 3%Z
  /\ Repeat (chk (state_of (worker_start (mkSt check_echo_no "")))) = 30%Z.
Proof.
  destruct (C6_defaults_of_a_worker check_echo_no "") as (Ht & _ & _ & Hr & _).
  - reflexivity.
  - split; [exact Ht | exact Hr].
Defined.

(** ** C7: the redirect policy *)

(** [client.Do] returns: the fuel it is given is enough. *)
Lemma client_send_returns srv : forall fuel req via,
  (10 <= fuel + length via)%nat ->
  fst (client_send fuel srv req via) <> None.
Proof.
  induction fuel as [|fuel IH]; intros req via Hf; cbn [client_send];
    destruct (srv req) as [e|loc|st b]; try discriminate;
    unfold redirect; rewrite length_app; cbn [length];
    destruct (Nat.leb_spec 10 (length via + 1)); try discriminate.
  - lia.
  - specialize (IH (mkRequest (URL (mkRequest loc None)) (Some "jsonmon")) (via ++ [req])).
    destruct (client_send fuel srv _ (via ++ [req])) as [r tr].
    cbn [fst] in *. apply IH. rewrite length_app. cbn [length]. lia.
Qed.

(** It sends ten requests at most, the first included. *)
Lemma client_send_requests srv : forall fuel req via,
  (length via < 10)%nat ->
  (length (snd (client_send fuel srv req via)) + length via <= 10)%nat.
Proof.
  induction fuel as [|fuel IH]; intros req via Hv; cbn [client_send];
    destruct (srv req) as [e|loc|st b]; cbn [snd length]; try lia;
    unfold redirect; rewrite length_app; cbn [length];
    destruct (Nat.leb_spec 10 (length via + 1)); cbn [snd length]; try lia.
  specialize (IH (mkRequest (URL (mkRequest loc None)) (Some "jsonmon")) (via ++ [req])).
  destruct (client_send fuel srv _ (via ++ [req])) as [r tr].
  cbn [snd length] in *. rewrite length_app in IH. cbn [length] in IH. lia.
Qed.

(** C7, where the code departs from it.  [redirect] refuses the upcoming
    request as soon as ten requests were made, that is the tenth redirect
    and not the eleventh: whatever the server, [client.Do] returns and has
    sent ten requests at most (nine redirects followed); a target that
    needs nine redirects is fetched, and a target that needs ten fails
    after ten requests with the diagnostic that names the limit. *)
Theorem C7_tenth_redirect_is_refused :
  (forall req via, (10 <= length via)%nat ->
      snd (redirect req via) = Some "stopped after 10 redirects")
  /\ (forall req via, (length via < 10)%nat ->
         redirect req via = (mkRequest (URL req) (Some "jsonmon"), None))
  /\ (forall srv req,
         fst (client_Do srv req) <> None
         /\ (count is_probe (snd (client_Do srv req)) <= 10)%nat)
  /\ fst (@fetch example_lib (chain "http://a" 9) "http://a" "" 200) = None
  /\ fst (@fetch example_lib (chain "http://a" 10) "http://a" "" 200)
     = Some (url_Error "Get" "http://a//////////" "stopped after 10 redirects")
  /\ count is_probe (snd (@fetch example_lib (chain "http://a" 10) "http://a" "" 200))
     = 10%nat
  /\ contains "stopped after 10 redirects"
       (default "" (fst (@fetch example_lib (chain "http://a" 10) "http://a" "" 200)))
     = true.
Proof.
  split; [|split; [|split; [|split; [|split; [|split]]]]].
  - intros req via Hv. unfold redirect.
    destruct (Nat.leb_spec 10 (length via)); [reflexivity | lia].
  - intros req via Hv. unfold redirect.
    destruct (Nat.leb_spec 10 (length via)); [lia | reflexivity].
  - intros srv req. split.
    + apply client_send_returns. cbn [length]. lia.
    + unfold client_Do, count.
      pose proof (client_send_requests srv 10 req [] ltac:(cbn [length]; lia)) as L.
      cbn [length] in L.
      pose proof (List.filter_length_le is_probe (snd (client_send 10 srv req []))).
      lia.
  - vm_compute. reflexivity.
  - vm_compute. reflexivity.
  - vm_compute. reflexivity.
  - vm_compute. reflexivity.
Qed.

(** ** C8: a match that does not compile *)

(** C8 as it was stated fails: when the command itself fails, the match is
    not compiled, and the diagnostic is that of the command. *)
Lemma C8_exit_error_without_compile_error :
  @regexp_Compile example_lib (Match check_bad_match)
  = inr "error parsing regexp: missing closing ): `(`"
  /\ fst (@attempts example_lib false check_bad_match 0 env_exit_1)
     = Some "exit status 1"
  /\ contains "error parsing regexp: missing closing ): `(`"
       (default "" (fst (@attempts example_lib false check_bad_match 0 env_exit_1)))
     = false.
Proof. repeat split; vm_compute; reflexivity. Qed.

Section BadMatch.
Context `{GoLib}.

Lemma shell_tries_bad_match m ce cmd sleep run :
  nonempty m = true -> regexp_Compile m = inr ce ->
  forall left k acc,
    exists o e, fst (shell_tries (S left) k cmd m sleep run acc) = (o, Some e).
Proof.
  intros Hm Hc. induction left as [|left IH]; intros k acc.
  - cbn [shell_tries]. destruct (err (run k)) as [e|] eqn:E.
    + cbn [fst]. eauto.
    + cbn [fst]. unfold match_output. rewrite Hm, Hc. eauto.
  - remember (S left) as n. cbn [shell_tries].
    destruct (err (run k)) as [e|] eqn:E.
    + subst n. destruct (IH (S k) (out (run k), Some e)) as (o & e' & IHe).
      destruct (shell_tries (S left) (S k) cmd m sleep run (out (run k), Some e))
        as [res tr].
      cbn [fst] in *. eauto.
    + cbn [fst]. unfold match_output. rewrite Hm, Hc. eauto.
Qed.

Lemma fetch_bad_match m ce srv url code :
  nonempty m = true -> regexp_Compile m = inr ce ->
  exists e, fst (fetch srv url m code) = Some e.
Proof.
  intros Hm Hc. unfold fetch.
  destruct (NewRequest_err url) as [e|]; [cbn [fst]; eauto|].
  destruct (client_Do srv _) as [[[e|st b]|] tr]; cbn [fst]; eauto.
  destruct (negb (st =? code)%Z); cbn [fst]; eauto.
  unfold match_output. rewrite Hm, Hc. eauto.
Qed.

Lemma web_tries_bad_match m ce url code sleep web :
  nonempty m = true -> regexp_Compile m = inr ce ->
  forall left k acc,
    exists e, fst (web_tries (S left) k url m code sleep web acc) = Some e.
Proof.
  intros Hm Hc. induction left as [|left IH]; intros k acc.
  - cbn [web_tries].
    destruct (fetch_bad_match m ce (web k) url code Hm Hc) as [e E].
    destruct (fetch (web k) url m code) as [e0 tr]. cbn [fst] in E. subst e0.
    cbn [fst]. eauto.
  - remember (S left) as n. cbn [web_tries].
    destruct (fetch_bad_match m ce (web k) url code Hm Hc) as [e E].
    destruct (fetch (web k) url m code) as [e0 tr]. cbn [fst] in E. subst e0 n.
    destruct (IH (S k) (Some e)) as (e' & IHe).
    destruct (web_tries (S left) (S k) url m code sleep web (Some e)) as [res tr'].
    cbn [fst] in *. eauto.
Qed.

End BadMatch.

(** C8, as the code has it.  A match that is set and does not compile.
    Shell: a run that exits with status zero ends the loop and fails with
    the output followed by the text of the compile error; a run that
    exits with an error fails with the output followed by the text of
    that error; so a cycle fails with the one or the other, according to
    whether a run before the end of the tries exited with status zero.
    Web: a fetch fails with the error of the URL, or of the transport or
    the redirect limit, or with the text [url returned status] when the
    status is another, or, the status being the expected one, with the
    text of the compile error; a cycle fails with the diagnostic of its
    last fetch.  Every cycle of a check with one try or more fails; all
    of it is a value the loop returns. *)
Theorem C8_match_compile_error_is_a_failure `{GoLib} :
  forall (m ce : string),
    nonempty m = true ->
    regexp_Compile m = inr ce ->
    (forall left k cmd sleep run acc,
        err (run k) = None ->
        shell_tries (S left) k cmd m sleep run acc
        = ((out (run k), Some ce), [EvShell cmd])
        /\ contains ce (out (run k) +:+ ce) = true)
    /\ (forall k cmd sleep run acc e,
           err (run k) = Some e ->
           shell_tries 1 k cmd m sleep run acc
           = ((out (run k), Some e), [EvShell cmd]))
    /\ (forall c sleep env,
           Match c = m ->
           (forall k, (k < Z.to_nat (Tries c))%nat ->
              (forall j, (j < k)%nat -> err (runs env j) <> None) ->
              err (runs env k) = None ->
              fst (attempts false c sleep env) = Some (out (runs env k) +:+ ce))
           /\ ((0 < Z.to_nat (Tries c))%nat ->
               (forall j, (j < Z.to_nat (Tries c))%nat -> err (runs env j) <> None) ->
               exists e,
                 err (runs env (Z.to_nat (Tries c) - 1)%nat) = Some e
                 /\ fst (attempts false c sleep env)
                    = Some (out (runs env (Z.to_nat (Tries c) - 1)%nat) +:+ e)))
    /\ (forall srv url code,
           fst (client_Do srv (mkRequest url (Some "jsonmon"))) <> None
           /\ (forall e, NewRequest_err url = Some e ->
                         fst (fetch srv url m code) = Some e)
           /\ (NewRequest_err url = None ->
               (forall e,
                   fst (client_Do srv (mkRequest url (Some "jsonmon"))) = Some (DoErr e) ->
                   fst (fetch srv url m code) = Some e)
               /\ (forall st body,
                      fst (client_Do srv (mkRequest url (Some "jsonmon")))
                      = Some (DoResp st body) ->
                      st <> code ->
                      fst (fetch srv url m code)
                      = Some (url +:+ " returned " +:+ FormatInt st))
               /\ (forall body,
                      fst (client_Do srv (mkRequest url (Some "jsonmon")))
                      = Some (DoResp code body) ->
                      fst (fetch srv url m code) = Some ce)))
    /\ (forall c sleep env,
           Match c = m ->
           (0 < Z.to_nat (Tries c))%nat ->
           fst (attempts true c sleep env)
           = fst (fetch (webs env (Z.to_nat (Tries c) - 1)%nat) (Web c) m (Return c)))
    /\ (forall is_web c sleep env,
           Match c = m -> (1 <= Tries c)%Z -> verdict is_web c sleep env = true).
Proof.
  intros m ce Hm Hc.
  assert (Mo : forall o, match_output m o = Some ce).
  { intros o. unfold match_output. now rewrite Hm, Hc. }
  split; [|split; [|split; [|split; [|split]]]].
  - intros left k cmd sleep run acc He. split.
    + cbn [shell_tries]. rewrite He, Mo. reflexivity.
    + apply contains_suffix.
  - intros k cmd sleep run acc e He. cbn [shell_tries]. rewrite He. reflexivity.
  - intros c sleep env E. subst m. split.
    + intros k Hk Hbefore Hok. unfold attempts.
      destruct (shell_tries_first_exit_zero (Shell c) (Match c) sleep (runs env)
                  (Z.to_nat (Tries c)) k 0%nat ("", None) Hk Hbefore Hok) as (Hr & _).
      destruct (shell_tries _ _ _ _ _ _ _) as [[o e] tr]. cbn [fst snd] in *.
      inversion Hr; subst. cbn [Nat.add]. rewrite Mo. reflexivity.
    + intros Hn Hall. unfold attempts.
      destruct (shell_tries_all_fail (Shell c) (Match c) sleep (runs env)
                  (Z.to_nat (Tries c)) 0%nat ("", None) Hall) as (_ & _ & Hr).
      specialize (Hr Hn).
      destruct (shell_tries _ _ _ _ _ _ _) as [[o e] tr]. cbn [fst snd] in *.
      inversion Hr; subst. cbn [Nat.add].
      destruct (err (runs env (Z.to_nat (Tries c) - 1)%nat)) as [e|] eqn:E.
      * exists e. split; reflexivity.
      * exfalso. apply (Hall (Z.to_nat (Tries c) - 1)%nat); [lia | exact E].
  - intros srv url code. split; [|split].
    + apply client_send_returns. cbn [length]. lia.
    + intros e E. unfold fetch. now rewrite E.
    + intros N. unfold fetch. rewrite N.
      destruct (client_Do srv (mkRequest url (Some "jsonmon"))) as [r tr].
      cbn [fst]. split; [|split].
      * intros e ->. reflexivity.
      * intros st body -> D.
        destruct (Z.eqb_spec st code); [contradiction | reflexivity].
      * intros body ->. rewrite Z.eqb_refl. cbn [negb fst]. apply Mo.
  - intros c sleep env E Hn. subst m. unfold attempts.
    apply (web_tries_all_fail (Web c) (Match c) (Return c) sleep (webs env)
             (Z.to_nat (Tries c)) 0%nat None); [|exact Hn].
    intros j Hj.
    destruct (fetch_bad_match (Match c) ce (webs env (0 + j)%nat) (Web c) (Return c)
                Hm Hc) as [e Ef].
    rewrite Ef. discriminate.
  - intros is_web c sleep env E Ht. subst m.
    unfold verdict, attempts.
    destruct (Z.to_nat (Tries c)) as [|left] eqn:T; [lia|].
    destruct is_web.
    + destruct (web_tries_bad_match (Match c) ce (Web c) (Return c) sleep (webs env)
                  Hm Hc left 0%nat None) as [e E].
      now rewrite E.
    + destruct (shell_tries_bad_match (Match c) ce (Shell c) sleep (runs env)
                  Hm Hc left 0%nat ("", None)) as (o & e & E).
      destruct (shell_tries _ _ _ _ _ _ _) as [[o' e'] tr].
      cbn [fst] in *. inversion E; subst. reflexivity.
Qed.

Lemma C8_match_compile_error_witness :
  fst (@attempts example_lib false check_bad_match 0 env_exit_0)
  = Some ("out" +:+ "error parsing regexp: missing closing ): `(`")
  /\ fst (@attempts example_lib false check_bad_match 0 env_exit_1)
     = Some ("" +:+ "exit status 1")
  /\ @verdict example_lib false check_bad_match 0 env_exit_0 = true.
Proof.
  destruct (@C8_match_compile_error_is_a_failure example_lib
              "(" "error parsing regexp: missing closing ): `(`")
    as (_ & _ & Hs & _ & _ & Hv).
  - reflexivity.
  - reflexivity.
  - split; [|split].
    + destruct (Hs check_bad_match 0%Z env_exit_0 eq_refl) as [Hz _].
      apply (Hz 0%nat).
      * simpl. lia.
      * intros j Hj. lia.
      * reflexivity.
    + destruct (Hs check_bad_match 0%Z env_exit_1 eq_refl) as [_ He].
      destruct He as (e & E1 & E2).
      * simpl. lia.
      * intros j Hj. discriminate.
      * rewrite E2. simpl in E1. inversion E1. reflexivity.
    + apply Hv; [reflexivity | simpl; lia].
Defined.

(** ** C9: the alert command *)

Section Alert.
Context `{GoLib}.

Lemma process_alerts env name c d t :
  nonempty (Alert c) = true ->
  List.filter is_alert (trace_of (process env name c d (mkSt c t)))
  = match d, Failed c with
    | Some msg, false => [EvAlert (Alert c) [FormatBool true; name; msg]]
    | None, true => [EvAlert (Alert c) [FormatBool false; name]]
    | _, _ => []
    end.
Proof.
  intros A. unfold process, when. prog.
  destruct d as [msg|], (Failed c); simpl; try reflexivity; rewrite A;
    destruct (nonempty (Notify c)), (mail_start env), (err (alert_run env));
    reflexivity.
Qed.

Lemma process_alert_logged env name c d t e :
  nonempty (Alert c) = true ->
  err (alert_run env) = Some e ->
  (match d with Some _ => true | None => false end) <> Failed c ->
  In (EvStderr ("<3>" +:+ Alert c +:+ " failed" +:+ nl
                +:+ out (alert_run env) +:+ e +:+ nl))
     (trace_of (process env name c d (mkSt c t))).
Proof.
  intros A E D. unfold process, when. prog.
  destruct d as [msg|], (Failed c); try congruence; simpl; rewrite A, E;
    destruct (nonempty (Notify c)), (mail_start env); simpl; tauto.
Qed.

Lemma process_state_alert env res name c d t :
  state_of (process (with_alert res env) name c d (mkSt c t))
  = state_of (process env name c d (mkSt c t)).
Proof.
  destruct (bool_decide ((match d with Some _ => true | None => false end) = Failed c))
    eqn:B.
  - apply bool_decide_eq_true in B. now rewrite !process_steady by exact B.
  - apply bool_decide_eq_false in B. now rewrite !process_change by exact B.
Qed.

End Alert.

(** C9.  A check with an alert command.  On a cycle that takes the check
    down the command is run once, with the arguments [true], the display
    name and the diagnostic; on a cycle that brings it up it is run once,
    with [false] and the display name only; on a cycle that changes
    nothing it is not run.  What the command returns has no part in the
    state the cycle leaves; its error is written to the standard error.
    The display name is the name of the check when set, else its target. *)
Theorem C9_alert_command_arguments `{GoLib} :
  forall (is_web : bool) (name : string) (sleep repeat : Z) (c : Check) (t : string)
         (env : CycleEnv),
    nonempty (Alert c) = true ->
    let r := poll is_web name sleep repeat env (mkSt c t) in
    (forall msg,
        fst (attempts is_web c sleep env) = Some msg -> Failed c = false ->
        List.filter is_alert (trace_of r)
        = [EvAlert (Alert c) [FormatBool true; name; msg]])
    /\ (fst (attempts is_web c sleep env) = None -> Failed c = true ->
        List.filter is_alert (trace_of r)
        = [EvAlert (Alert c) [FormatBool false; name]])
    /\ (verdict is_web c sleep env = Failed c -> List.filter is_alert (trace_of r) = [])
    /\ (forall res,
           state_of (poll is_web name sleep repeat (with_alert res env) (mkSt c t))
           = state_of r)
    /\ (forall e,
           err (alert_run env) = Some e ->
           verdict is_web c sleep env <> Failed c ->
           In (EvStderr ("<3>" +:+ Alert c +:+ " failed" +:+ nl
                         +:+ out (alert_run env) +:+ e +:+ nl))
              (trace_of r))
    /\ (forall c0 t0 w n sl rp,
           fst (fst (worker_start (mkSt c0 t0))) = Polling w n sl rp ->
           n = (if nonempty (Name c0) then Name c0
                else if w then Web c0 else Shell c0)).
Proof.
  intros is_web name sleep repeat c t env A r.
  assert (Tr : List.filter is_alert (trace_of r)
               = List.filter is_alert
                   (trace_of (process env name c (fst (attempts is_web c sleep env))
                                      (mkSt c t)))).
  { subst r. rewrite poll_eq. unfold trace_of at 1. cbn [snd].
    rewrite !List.filter_app.
    rewrite (quiet_filter _ _ quiet_not_alert (attempts_quiet is_web c sleep env)).
    cbn [List.filter is_alert app]. apply app_nil_r. }
  split; [|split; [|split; [|split; [|split]]]].
  - intros msg E F. rewrite Tr, process_alerts by exact A. now rewrite E, F.
  - intros E F. rewrite Tr, process_alerts by exact A. now rewrite E, F.
  - intros E. rewrite Tr, process_alerts by exact A. unfold verdict in E.
    destruct (fst (attempts is_web c sleep env)), (Failed c); congruence.
  - intros res. subst r. rewrite !poll_eq. unfold state_of at 1 3. cbn [fst snd].
    apply (process_state_alert env res name c _ t).
  - intros e E D. subst r. rewrite poll_eq. unfold trace_of at 1. cbn [snd].
    apply in_or_app. right. apply in_or_app. left.
    apply process_alert_logged; assumption.
  - intros c0 t0 w n sl rp E.
    destruct (invalid c0) eqn:V.
    + destruct (worker_start_invalid c0 t0 V) as [msg Em]. rewrite Em in E.
      discriminate.
    + rewrite (worker_start_valid c0 t0 V) in E. cbn [fst] in E.
      inversion E; subst.
      destruct (nonempty (Name c0)), (nonempty (Web c0)); reflexivity.
Qed.

Lemma C9_alert_command_witness :
  List.filter is_alert
    (trace_of (@poll example_lib false "db" 0 30 env_exit_1 (mkSt check_alerting "")))
  = [EvAlert "/bin/alert" ["true"; "db"; "exit status 1"]].
Proof.
  destruct (@C9_alert_command_arguments example_lib false "db" 0%Z 30%Z
              check_alerting "" env_exit_1)
    as (Hd & _).
  - reflexivity.
  - apply (Hd "exit status 1"); reflexivity.
Defined.

(** ** C5: what the status API shows of a shell check *)

Section OneCycle.
Context `{GoLib}.

Lemma shell_tries_succeeds cmd m sleep run :
  (forall k, err (run k) = None) ->
  (forall k, match_output m (out (run k)) = None) ->
  forall left k o, snd (fst (shell_tries left k cmd m sleep run (o, None))) = None.
Proof.
  intros He Hm [|left] k o; cbn [shell_tries]; [reflexivity|].
  rewrite He. cbn [fst snd]. apply Hm.
Qed.

End OneCycle.

(** C5 as it was stated fails: the body has the member [shell], and no
    member [name]. *)
Lemma C5_body_has_no_name :
  body (status_of (@after_one_cycle example_lib check_echo_ok time_0 version_0
                     env_echo_ok env_echo_ok)
                  (mkHttpRequest ∅))
  <> body_with_name.
Proof. vm_compute. discriminate. Qed.

(** C5, as the code has it.  One shell check [echo ok] without a name,
    whose command succeeds: after the start of its worker and one cycle,
    the status API answers a client that does not hold the token with 200
    and the body made of the members [shell] and [failed], without [name]
    and without [since].  The name that defaults to the target is the
    local [name] of the worker, which the notifications use; the field
    [Name] of the check stays empty. *)
Theorem C5_status_of_a_shell_check `{GoLib} :
  forall (c : Check) (t0 : Time) (v : ver) (env0 env : CycleEnv) (r : HttpRequest),
    Name c = "" -> Web c = "" -> Shell c = "echo ok" ->
    (forall k, err (runs env k) = None) ->
    (forall k, match_output (Match c) (out (runs env k)) = None) ->
    Header_Get (ReqHeader r) "If-None-Match" <> etag t0 ->
    let s := after_one_cycle c t0 v env0 env in
    status (status_of s r) = Some 200%Z
    /\ body (status_of s r) = body_with_shell
    /\ (exists c', checks (globals s) = [c'] /\ Name c' = "" /\ Since c' = "")
    /\ exists sleep repeat, phases s = [Polling false "echo ok" sleep repeat].
Proof.
  intros c t0 v env0 env r Hn Hw Hs He Hm Hr s.
  destruct c as [n w sh m ret no al tr rp sl f si]. cbn in Hn, Hw, Hs, Hm. subst n w sh.
  set (c0 := mkCheck "" "" "echo ok" m ret no al tr rp sl false "").
  assert (V : invalid c0 = false) by reflexivity.
  pose proof (worker_start_valid c0 (etag t0) V) as W. cbn zeta in W.
  change (nonempty (Web c0)) with false in W.
  change (nonempty (Name c0)) with false in W.
  change (Shell c0) with "echo ok" in W. cbn [andb] in W.
  set (c2 := if (Tries c0 =? 0)%Z
             then set_Tries 1 (if (Repeat c0 =? 0)%Z then set_Repeat 30 c0 else c0)
             else if (Repeat c0 =? 0)%Z then set_Repeat 30 c0 else c0) in *.
  assert (F2 : Name c2 = "" /\ Web c2 = "" /\ Shell c2 = "echo ok" /\ Match c2 = m
               /\ Failed c2 = false /\ Since c2 = "").
  { subst c2. destruct (Tries c0 =? 0)%Z, (Repeat c0 =? 0)%Z; repeat split. }
  destruct F2 as (N2 & W2 & S2 & M2 & Fl2 & Si2).
  set (s1 := step 0 env0 (main [mkCheck "" "" "echo ok" m ret no al tr rp sl f si] t0 v)).
  assert (E1 : s1 = mkSys (mkMon [c2] (etag t0) (etag t0) v false)
                          [Polling false "echo ok" (seconds (Sleep c0)) (seconds (Repeat c2))]
                          []).
  { subst s1.
    set (s0 := main [mkCheck "" "" "echo ok" m ret no al tr rp sl f si] t0 v).
    assert (P0 : phases s0 !! 0%nat = Some Spawned) by reflexivity.
    assert (L0 : checks (globals s0) !! 0%nat = Some c0) by reflexivity.
    unfold step. rewrite P0, (on_check_spec 0 worker_start s0 c0 L0).
    change (modified (globals s0)) with (etag t0).
    unfold state_of, trace_of. rewrite W. reflexivity. }
  assert (Vd : verdict false c2 (seconds (Sleep c0)) env = false).
  { unfold verdict, attempts.
    pose proof (shell_tries_succeeds (Shell c2) (Match c2) (seconds (Sleep c0)) (runs env)
                  He ltac:(rewrite M2; exact Hm) (Z.to_nat (Tries c2)) 0%nat "") as Q.
    destruct (shell_tries _ _ _ _ _ _ _) as [[o e] tr0]. cbn [fst snd] in *.
    now subst e. }
  assert (E2 : globals s = mkMon [c2] (etag t0) (etag t0) v false
               /\ phases s = [Polling false "echo ok" (seconds (Sleep c0))
                                      (seconds (Repeat c2))]).
  { subst s. unfold after_one_cycle. fold s1. rewrite E1.
    set (s1' := mkSys _ _ _).
    assert (P1 : phases s1' !! 0%nat
                 = Some (Polling false "echo ok" (seconds (Sleep c0))
                                 (seconds (Repeat c2)))) by reflexivity.
    assert (L1 : checks (globals s1') !! 0%nat = Some c2) by reflexivity.
    unfold step. rewrite P1, (on_check_spec 0 _ s1' c2 L1).
    rewrite poll_steady by (rewrite Vd; now rewrite Fl2).
    unfold state_of. cbn [fst snd chk tok]. split; reflexivity. }
  destruct E2 as [G2 P2].
  assert (B : marshal_Check c2
              = "{" +:+ quoted "shell" +:+ ":" +:+ quoted "echo ok" +:+ ","
                    +:+ quoted "failed" +:+ ":false}").
  { unfold marshal_Check. rewrite N2, W2, S2, Fl2, Si2. vm_compute. reflexivity. }
  split; [|split; [|split]].
  - unfold status_of. rewrite G2.
    apply (getChecks_fresh (mkMon [c2] (etag t0) (etag t0) v false) r). exact Hr.
  - unfold status_of. rewrite G2.
    destruct (getChecks_fresh (mkMon [c2] (etag t0) (etag t0) v false) r Hr) as (_ & Bd & _).
    rewrite Bd. cbn [checks map]. rewrite B. vm_compute. reflexivity.
  - exists c2. rewrite G2. repeat split; assumption.
  - eauto.
Qed.

Lemma C5_status_of_a_shell_check_witness :
  body (status_of (@after_one_cycle example_lib check_echo_ok time_0 version_0
                     env_echo_ok env_echo_ok)
                  (mkHttpRequest ∅))
  = body_with_shell.
Proof.
  destruct (@C5_status_of_a_shell_check example_lib check_echo_ok time_0 version_0
              env_echo_ok env_echo_ok (mkHttpRequest ∅))
    as (_ & Hb & _).
  - reflexivity.
  - reflexivity.
  - reflexivity.
  - intros k. reflexivity.
  - intros k. reflexivity.
  - vm_compute. discriminate.
  - exact Hb.
Defined.

(** ** Examples for C2 and C3 *)

Lemma C2_equal_verdicts_witness :
  state_of (@poll example_lib false "echo ok" 0 30000000000 env_echo_ok
              (mkSt check_echo_ok_started (etag time_0)))
  = mkSt check_echo_ok_started (etag time_0).
Proof.
  destruct (@C2_equal_verdicts_change_nothing example_lib false "echo ok" 0%Z
              30000000000%Z) as (Hs & _).
  destruct (Hs check_echo_ok_started (etag time_0) env_echo_ok) as [E _].
  - reflexivity.
  - exact E.
Defined.

Lemma C3_invalid_check_witness :
  checks (globals (@step example_lib 0 env_echo_ok
                     (main [check_neither; check_echo_ok] time_0 version_0))) !! 0%nat
  = Some (set_Failed true check_neither).
Proof.
  destruct (@C3_invalid_check_is_never_polled example_lib
              (main [check_neither; check_echo_ok] time_0 version_0) 0%nat
              check_neither env_echo_ok)
    as (Hc & _).
  - reflexivity.
  - reflexivity.
  - reflexivity.
  - exact Hc.
Defined.

(** * Further properties of the code *)

(** ** The token *)

Lemma to_int_not_nil (z : Z) :
  Z.to_int z <> Decimal.Pos Decimal.Nil /\ Z.to_int z <> Decimal.Neg Decimal.Nil.
Proof.
  pose proof (DecimalZ.to_of (Z.to_int z)) as E. rewrite DecimalZ.of_to in E.
  split; intros N; rewrite N in E; discriminate E.
Qed.

Lemma FormatInt_inj (a b : Z) : FormatInt a = FormatInt b -> a = b.
Proof.
  unfold FormatInt. intros E.
  apply DecimalZ.to_int_inj.
  destruct (to_int_not_nil a) as [A1 A2], (to_int_not_nil b) as [B1 B2].
  pose proof (NilZero.isi (Z.to_int a) A1 A2) as Ia.
  pose proof (NilZero.isi (Z.to_int b) B1 B2) as Ib.
  rewrite E in Ia. congruence.
Qed.

Lemma append_inj_r (s1 s2 : string) (a : ascii) :
  s1 +:+ String a "" = s2 +:+ String a "" -> s1 = s2.
Proof.
  revert s2. induction s1 as [|x s1 IH]; intros [|y s2] E.
  - reflexivity.
  - rewrite append_nil_l, append_cons in E. inversion E as [[Ea Es]].
    destruct s2; discriminate Es.
  - rewrite append_nil_l, append_cons in E. inversion E as [[Ea Es]].
    destruct s1; discriminate Es.
  - rewrite !append_cons in E. inversion E; subst. f_equal. now apply IH.
Qed.

Lemma etag_not_empty (t : Time) : etag t <> "".
Proof.
  unfold etag.
  change ("W/" +:+ dq +:+ FormatInt (UnixNano t) +:+ dq)
    with (String "W" (String "/" (String "034"
            (FormatInt (UnixNano t) +:+ String "034" "")))).
  discriminate.
Qed.

(** X1.  [etag] tells two clock readings apart exactly when their
    nanosecond counts differ, and is never the empty string. *)
Theorem etag_tells_nanoseconds_apart :
  forall t1 t2 : Time,
    (etag t1 = etag t2 <-> UnixNano t1 = UnixNano t2) /\ etag t1 <> "".
Proof.
  intros t1 t2. split; [split|].
  - unfold etag. intros E.
    apply FormatInt_inj.
    apply (append_inj_r _ _ "034"%char).
    change ("W/" +:+ dq +:+ FormatInt (UnixNano t1) +:+ dq)
      with (String "W" (String "/" (String "034"
              (FormatInt (UnixNano t1) +:+ String "034" "")))) in E.
    change ("W/" +:+ dq +:+ FormatInt (UnixNano t2) +:+ dq)
      with (String "W" (String "/" (String "034"
              (FormatInt (UnixNano t2) +:+ String "034" "")))) in E.
    now inversion E.
  - unfold etag. now intros ->.
  - apply etag_not_empty.
Qed.

(** ** Durations *)

(** X2.  [time.Second * time.Duration(n)] is the number of nanoseconds of
    [n] seconds exactly when [n] is within 9223372036 seconds of zero;
    the first value beyond wraps around to a negative duration. *)
Theorem seconds_overflow :
  (forall n : Z,
      seconds n = (1000000000 * n)%Z
      <-> (-9223372036 <= n <= 9223372036)%Z)
  /\ seconds 9223372037 = (-9223372036709551616)%Z.
Proof.
  split; [|reflexivity].
  intros n. unfold seconds, wrap64. split.
  - intros E.
    pose proof (Z.mod_pos_bound (1000000000 * n + 2 ^ 63) (2 ^ 64) ltac:(lia)) as B.
    lia.
  - intros B. rewrite Z.mod_small by lia. lia.
Qed.

(** ** Runs of cycles *)

Section Runs.
Context `{GoLib}.

Lemma process_log_count env name c d t :
  count is_log (trace_of (process env name c d (mkSt c t)))
  = if Bool.eqb (Failed c) (match d with Some _ => true | None => false end)
    then 0%nat else 1%nat.
Proof.
  unfold process, when, count. prog.
  destruct d, (Failed c); simpl; try reflexivity;
    destruct (nonempty (Notify c)), (nonempty (Alert c)), (mail_start env),
      (err (alert_run env)); reflexivity.
Qed.

Lemma process_no_probe env name c d t :
  count is_probe (trace_of (process env name c d (mkSt c t))) = 0%nat
  /\ count is_sleep (trace_of (process env name c d (mkSt c t))) = 0%nat.
Proof.
  unfold process, when, count. prog.
  destruct d, (Failed c); simpl; try (split; reflexivity);
    destruct (nonempty (Notify c)), (nonempty (Alert c)), (mail_start env),
      (err (alert_run env)); split; reflexivity.
Qed.

(** One cycle: the state it leaves and the log lines it writes. *)
Lemma poll_cases is_web name sleep repeat env c t :
  state_of (poll is_web name sleep repeat env (mkSt c t))
  = (if Bool.eqb (Failed c) (verdict is_web c sleep env)
     then mkSt c t
     else mkSt (set_Since (RFC3339 (now env))
                  (set_Failed (verdict is_web c sleep env) c))
               (etag (now env)))
  /\ count is_log (trace_of (poll is_web name sleep repeat env (mkSt c t)))
     = (if Bool.eqb (Failed c) (verdict is_web c sleep env) then 0%nat else 1%nat).
Proof.
  split.
  - destruct (Bool.eqb (Failed c) (verdict is_web c sleep env)) eqn:B.
    + apply Bool.eqb_prop in B. rewrite poll_steady by congruence. reflexivity.
    + apply Bool.eqb_false_iff in B.
      rewrite poll_eq. unfold state_of at 1. cbn [fst snd].
      apply process_change. unfold verdict in B. congruence.
  - rewrite poll_eq. unfold trace_of at 1. cbn [snd].
    rewrite !count_app, process_log_count.
    rewrite (count_quiet _ _ quiet_not_log (attempts_quiet is_web c sleep env)).
    unfold verdict.
    destruct (Bool.eqb _ _); reflexivity.
Qed.

Lemma polls_cons is_web name sleep repeat env envs st :
  state_of (polls is_web name sleep repeat (env :: envs) st)
  = state_of (polls is_web name sleep repeat envs
                (state_of (poll is_web name sleep repeat env st)))
  /\ trace_of (polls is_web name sleep repeat (env :: envs) st)
     = trace_of (poll is_web name sleep repeat env st)
       ++ trace_of (polls is_web name sleep repeat envs
                      (state_of (poll is_web name sleep repeat env st))).
Proof.
  cbn [polls]. unfold bind, state_of, trace_of.
  destruct (poll is_web name sleep repeat env st) as [[[] st1] tr1]. cbn [fst snd].
  destruct (polls is_web name sleep repeat envs st1) as [[[] st2] tr2].
  split; reflexivity.
Qed.

End Runs.

Lemma last_cons {A} (l : list A) : forall v d, List.last (v :: l) d = List.last l v.
Proof.
  induction l as [|b l IH]; intros v d; [reflexivity|].
  change (List.last (v :: b :: l) d) with (List.last (b :: l) d).
  now rewrite (IH b d), (IH b v).
Qed.

(** X3.  Notifications are edge-triggered: over any run of cycles of a
    check, the cycles write as many log lines as the sequence of their
    verdicts, read after the flag the run starts with, has changes. *)
Theorem log_lines_count_the_changes `{GoLib} :
  forall (is_web : bool) (name : string) (sleep repeat : Z) (envs : list CycleEnv)
         (c : Check) (t : string),
    count is_log (trace_of (polls is_web name sleep repeat envs (mkSt c t)))
    = changes (Failed c) (map (verdict is_web c sleep) envs).
Proof.
  intros is_web name sleep repeat envs.
  induction envs as [|env envs IH]; intros c t; [reflexivity|].
  destruct (polls_cons is_web name sleep repeat env envs (mkSt c t)) as [_ ->].
  destruct (poll_cases is_web name sleep repeat env c t) as [Es Ec].
  rewrite count_app, Ec, Es. cbn [map changes].
  destruct (Bool.eqb (Failed c) (verdict is_web c sleep env)) eqn:B.
  - apply Bool.eqb_prop in B. rewrite IH, <- B. reflexivity.
  - rewrite IH. reflexivity.
Qed.

(** X4.  What a run of cycles leaves of a check: the flag is the verdict of
    the last cycle (the flag of before when there was no cycle), the
    fields of the configuration are as before, and either check and token
    are as before or [Since] and the token are the two renderings of the
    clock of one and the same cycle of the run. *)
Theorem state_after_a_run `{GoLib} :
  forall (is_web : bool) (name : string) (sleep repeat : Z) (envs : list CycleEnv)
         (c : Check) (t : string),
    let st := state_of (polls is_web name sleep repeat envs (mkSt c t)) in
    Failed (chk st) = List.last (map (verdict is_web c sleep) envs) (Failed c)
    /\ definition_of (chk st) = definition_of c
    /\ (st = mkSt c t
        \/ exists env, In env envs
                       /\ Since (chk st) = RFC3339 (now env)
                       /\ tok st = etag (now env)).
Proof.
  intros is_web name sleep repeat envs.
  induction envs as [|env envs IH]; intros c t st.
  - subst st. split; [reflexivity|]. split; [reflexivity|]. now left.
  - subst st.
    destruct (polls_cons is_web name sleep repeat env envs (mkSt c t)) as [-> _].
    destruct (poll_cases is_web name sleep repeat env c t) as [Es _]. rewrite Es.
    destruct (Bool.eqb (Failed c) (verdict is_web c sleep env)) eqn:B.
    + apply Bool.eqb_prop in B.
      destruct (IH c t) as (F & D & S). cbn zeta in F, D, S.
      split; [|split; [exact D|]].
      * rewrite F. cbn [map]. rewrite last_cons, B. reflexivity.
      * destruct S as [S | (e & I & S1 & S2)]; [now left|].
        right. exists e. split; [now right | split; assumption].
    + set (c1 := set_Since (RFC3339 (now env))
                   (set_Failed (verdict is_web c sleep env) c)).
      destruct (IH c1 (etag (now env))) as (F & D & S). cbn zeta in F, D, S.
      split; [|split; [exact D|]].
      * rewrite F. cbn [map].
        change (map (verdict is_web c1 sleep) envs)
          with (map (verdict is_web c sleep) envs).
        change (Failed c1) with (verdict is_web c sleep env).
        now rewrite last_cons.
      * right. destruct S as [S | (e & I & S1 & S2)].
        -- exists env. rewrite S. split; [now left | split; reflexivity].
        -- exists e. split; [now right | split; assumption].
Qed.

(** ** Bounds of the tries *)

Section Bounds.
Context `{GoLib}.

Lemma shell_tries_bounds cmd m sleep run : forall left k acc,
  let tr := snd (shell_tries left k cmd m sleep run acc) in
  (count is_probe tr <= left)%nat
  /\ (count is_sleep tr <= left - 1)%nat
  /\ Forall (fun e => is_sleep e = true -> e = EvSleep sleep) tr.
Proof.
  induction left as [|left IH]; intros k acc.
  - cbn. repeat split; try lia. constructor.
  - cbn [shell_tries]. destruct (err (run k)) as [e|].
    + destruct (IH (S k) (out (run k), Some e)) as (Ip & Is & If).
      destruct (shell_tries left (S k) cmd m sleep run (out (run k), Some e))
        as [res tr].
      cbn [fst snd] in *.
      destruct left as [|left].
      * repeat split; try count_solve.
        constructor; [discriminate | exact If].
      * repeat split; try count_solve.
        constructor; [discriminate|]. constructor; [reflexivity | exact If].
    + cbn [snd]. repeat split; try count_solve.
      constructor; [discriminate | constructor].
Qed.

Lemma fetch_bounds srv url m code :
  (count is_probe (snd (fetch srv url m code)) <= 10)%nat
  /\ count is_sleep (snd (fetch srv url m code)) = 0%nat.
Proof.
  split; [|apply fetch_no_sleep].
  unfold fetch. destruct (NewRequest_err url); [cbn; lia|].
  pose proof (client_send_requests srv 10 (mkRequest url (Some "jsonmon")) []
                ltac:(cbn [length]; lia)) as L.
  unfold client_Do. cbn [length] in L.
  assert (C : (count is_probe (snd (client_send 10 srv (mkRequest url (Some "jsonmon")) []))
               <= 10)%nat).
  { unfold count.
    pose proof (List.filter_length_le is_probe
                  (snd (client_send 10 srv (mkRequest url (Some "jsonmon")) []))).
    lia. }
  destruct (client_send _ _ _ _) as [[[e|st b]|] tr]; cbn [snd] in *; try exact C.
  destruct (negb _); exact C.
Qed.

Lemma web_tries_bounds url m code sleep web : forall left k acc,
  let tr := snd (web_tries left k url m code sleep web acc) in
  (count is_probe tr <= 10 * left)%nat
  /\ (count is_sleep tr <= left - 1)%nat
  /\ Forall (fun e => is_sleep e = true -> e = EvSleep sleep) tr.
Proof.
  induction left as [|left IH]; intros k acc.
  - cbn. repeat split; try lia. constructor.
  - cbn [web_tries].
    destruct (fetch_bounds (web k) url m code) as [Fp Fs].
    pose proof (fetch_probes (web k) url m code) as Fq.
    assert (Fe : Forall (fun e => is_sleep e = true -> e = EvSleep sleep)
                        (snd (fetch (web k) url m code))).
    { eapply List.Forall_impl; [|exact Fq].
      intros e P S. destruct e; discriminate. }
    destruct (fetch (web k) url m code) as [[e|] tr1]; cbn [snd] in *.
    + destruct (IH (S k) (Some e)) as (Ip & Is & If).
      destruct (web_tries left (S k) url m code sleep web (Some e)) as [res tr].
      cbn [fst snd] in *.
      destruct left as [|left].
      * repeat split; try count_solve.
        apply Forall_app; split; [exact Fe|]. exact If.
      * repeat split; try count_solve.
        apply Forall_app; split; [exact Fe|].
        constructor; [reflexivity | exact If].
    + repeat split; try count_solve. exact Fe.
Qed.

End Bounds.

(** X5.  A cycle runs the command [Tries] times at most, and sends ten
    requests at most for each of the [Tries] fetches of a web check; it
    sleeps fewer times than it tries, and each of these sleeps lasts the
    delay of the check. *)
Theorem attempts_are_bounded `{GoLib} :
  forall (is_web : bool) (c : Check) (sleep : Z) (env : CycleEnv),
    let tr := snd (attempts is_web c sleep env) in
    let n := Z.to_nat (Tries c) in
    (count is_probe tr <= (if is_web then 10 * n else n))%nat
    /\ (count is_sleep tr <= n - 1)%nat
    /\ Forall (fun e => is_sleep e = true -> e = EvSleep sleep) tr.
Proof.
  intros is_web c sleep env. unfold attempts. destruct is_web.
  - apply web_tries_bounds.
  - pose proof (shell_tries_bounds (Shell c) (Match c) sleep (runs env)
                  (Z.to_nat (Tries c)) 0%nat ("", None)) as B.
    destruct (shell_tries _ _ _ _ _ _ _) as [[o e] tr]. exact B.
Qed.

(** X6.  With tries that are zero or negative a cycle makes no attempt
    and succeeds: a check that is up stays up over any run of cycles,
    with no probe ever made. *)
Theorem no_tries_no_probe `{GoLib} :
  forall (is_web : bool) (name : string) (sleep repeat : Z) (c : Check) (t : string),
    (Tries c <= 0)%Z ->
    (forall env, attempts is_web c sleep env = (None, []))
    /\ (Failed c = false ->
        forall envs,
          state_of (polls is_web name sleep repeat envs (mkSt c t)) = mkSt c t
          /\ count is_probe (trace_of (polls is_web name sleep repeat envs (mkSt c t)))
             = 0%nat).
Proof.
  intros is_web name sleep repeat c t Ht.
  assert (A : forall env, attempts is_web c sleep env = (None, [])).
  { intros env. unfold attempts.
    replace (Z.to_nat (Tries c)) with 0%nat by lia.
    destruct is_web; reflexivity. }
  split; [exact A|].
  intros F envs. induction envs as [|env envs [IHs IHt]]; [split; reflexivity|].
  destruct (polls_cons is_web name sleep repeat env envs (mkSt c t)) as [-> ->].
  assert (V : verdict is_web c sleep env = Failed c).
  { unfold verdict. now rewrite A, F. }
  rewrite (poll_steady is_web name sleep repeat env c t V).
  rewrite A. unfold state_of, trace_of in *. cbn [fst snd app] in *.
  split; [exact IHs|].
  change (EvSleep repeat :: ?l) with ([EvSleep repeat] ++ l).
  rewrite count_app, IHt. reflexivity.
Qed.

Lemma no_tries_no_probe_witness :
  @attempts example_lib false check_negative_tries 0 env_exit_1 = (None, []).
Proof.
  destruct (@no_tries_no_probe example_lib false "true" 0%Z 30%Z
              check_negative_tries "") as [A _].
  - simpl. lia.
  - apply A.
Defined.

(** ** The retry policy, where the loops follow it *)

(** X7.  A web cycle with [n] tries: when all [n] fetches fail, the cycle
    fails with the diagnostic of the last fetch after [n - 1] sleeps; when
    the fetches before the [k]-th fail and that one succeeds, the cycle
    succeeds after [k] sleeps. *)
Theorem web_cycle_retries `{GoLib} :
  forall (c : Check) (sleep : Z) (env : CycleEnv),
    let n := Z.to_nat (Tries c) in
    let result k := fst (fetch (webs env k) (Web c) (Match c) (Return c)) in
    ((0 < n)%nat ->
     (forall j, (j < n)%nat -> result j <> None) ->
     fst (attempts true c sleep env) = result (n - 1)%nat
     /\ count is_sleep (snd (attempts true c sleep env)) = (n - 1)%nat)
    /\ (forall k, (k < n)%nat ->
          (forall j, (j < k)%nat -> result j <> None) ->
          result k = None ->
          fst (attempts true c sleep env) = None
          /\ count is_sleep (snd (attempts true c sleep env)) = k).
Proof.
  intros c sleep env n result. subst n result. unfold attempts. split.
  - intros Hn Hall.
    destruct (web_tries_all_fail (Web c) (Match c) (Return c) sleep (webs env)
                (Z.to_nat (Tries c)) 0%nat None Hall) as [Hs Hr].
    split; [apply (Hr Hn) | exact Hs].
  - intros k Hk Hbefore Hok.
    apply (web_tries_first_success (Web c) (Match c) (Return c) sleep (webs env)
             (Z.to_nat (Tries c)) k 0%nat None Hk Hbefore Hok).
Qed.

(** X8.  A shell cycle with [n] tries: when all [n] runs exit with an
    error, the cycle makes them all, sleeps [n - 1] times, and fails with
    the output of the last run followed by its error; when the runs
    before the [k]-th exit with an error and that one exits with status
    zero, the cycle makes [k + 1] runs and [k] sleeps, and what it yields
    is what the match says of the output of that run. *)
Theorem shell_cycle_retries `{GoLib} :
  forall (c : Check) (sleep : Z) (env : CycleEnv),
    let n := Z.to_nat (Tries c) in
    ((0 < n)%nat ->
     (forall j, (j < n)%nat -> err (runs env j) <> None) ->
     fst (attempts false c sleep env)
     = option_map (fun e => out (runs env (n - 1)%nat) +:+ e) (err (runs env (n - 1)%nat))
     /\ count is_probe (snd (attempts false c sleep env)) = n
     /\ count is_sleep (snd (attempts false c sleep env)) = (n - 1)%nat)
    /\ (forall k, (k < n)%nat ->
          (forall j, (j < k)%nat -> err (runs env j) <> None) ->
          err (runs env k) = None ->
          fst (attempts false c sleep env)
          = option_map (fun e => out (runs env k) +:+ e)
                       (match_output (Match c) (out (runs env k)))
          /\ count is_probe (snd (attempts false c sleep env)) = S k
          /\ count is_sleep (snd (attempts false c sleep env)) = k).
Proof.
  intros c sleep env n. subst n. unfold attempts. split.
  - intros Hn Hall.
    destruct (shell_tries_all_fail (Shell c) (Match c) sleep (runs env)
                (Z.to_nat (Tries c)) 0%nat ("", None) Hall) as (Hs & Hp & Hr).
    specialize (Hr Hn).
    destruct (shell_tries (Z.to_nat (Tries c)) 0 (Shell c) (Match c) sleep (runs env) ("", None))
      as [[o e] tr].
    cbn [fst snd] in *. inversion Hr; subst.
    repeat split; first [assumption | reflexivity].
  - intros k Hk Hbefore Hok.
    destruct (shell_tries_first_exit_zero (Shell c) (Match c) sleep (runs env)
                (Z.to_nat (Tries c)) k 0%nat ("", None) Hk Hbefore Hok) as (Hr & Hs & Hp).
    destruct (shell_tries (Z.to_nat (Tries c)) 0 (Shell c) (Match c) sleep (runs env) ("", None))
      as [[o e] tr].
    cbn [fst snd] in *. inversion Hr; subst.
    repeat split; first [assumption | reflexivity].
Qed.

(** ** The web probe *)

Lemma requests_app (a b : list Event) : requests (a ++ b) = requests a ++ requests b.
Proof.
  induction a as [|e a IH]; [reflexivity|].
  destruct e; cbn [app requests]; rewrite IH; reflexivity.
Qed.

Lemma client_send_agent srv : forall fuel req via,
  UserAgent req = Some "jsonmon" ->
  Forall (fun r => UserAgent r = Some "jsonmon")
         (requests (snd (client_send fuel srv req via))).
Proof.
  induction fuel as [|fuel IH]; intros req via A; cbn [client_send];
    destruct (srv req) as [e|loc|st b]; cbn [snd requests];
    try (constructor; [exact A | constructor]);
    unfold redirect; destruct (10 <=? length (via ++ [req]))%nat; cbn [snd requests];
    try (constructor; [exact A | constructor]).
  specialize (IH (mkRequest (URL (mkRequest loc None)) (Some "jsonmon"))
                 (via ++ [req]) eq_refl).
  destruct (client_send fuel srv _ (via ++ [req])) as [r tr].
  cbn [snd requests] in *. constructor; [exact A | exact IH].
Qed.

Section WebProbe.
Context `{GoLib}.

Lemma fetch_agent srv url m code :
  Forall (fun r => UserAgent r = Some "jsonmon") (requests (snd (fetch srv url m code))).
Proof.
  unfold fetch. destruct (NewRequest_err url); [constructor|].
  pose proof (client_send_agent srv 10 (mkRequest url (Some "jsonmon")) [] eq_refl) as A.
  unfold client_Do.
  destruct (client_send _ _ _ _) as [[[e|st b]|] tr]; cbn [snd] in *; try exact A.
  destruct (negb _); exact A.
Qed.

Lemma web_tries_agent url m code sleep web : forall left k acc,
  Forall (fun r => UserAgent r = Some "jsonmon")
         (requests (snd (web_tries left k url m code sleep web acc))).
Proof.
  induction left as [|left IH]; intros k acc; cbn [web_tries]; [constructor|].
  pose proof (fetch_agent (web k) url m code) as A.
  destruct (fetch (web k) url m code) as [[e|] tr1]; cbn [snd] in *; [|exact A].
  specialize (IH (S k) (Some e)).
  destruct (web_tries left (S k) url m code sleep web (Some e)) as [res tr].
  cbn [snd] in *. rewrite !requests_app.
  apply Forall_app; split; [exact A|].
  apply Forall_app; split; [|exact IH].
  destruct left; constructor.
Qed.

Lemma shell_tries_no_request cmd m sleep run : forall left k acc,
  requests (snd (shell_tries left k cmd m sleep run acc)) = [].
Proof.
  induction left as [|left IH]; intros k acc; cbn [shell_tries]; [reflexivity|].
  destruct (err (run k)) as [e|]; [|reflexivity].
  specialize (IH (S k) (out (run k), Some e)).
  destruct (shell_tries left (S k) cmd m sleep run (out (run k), Some e)) as [res tr].
  cbn [snd requests] in *. rewrite requests_app, IH.
  destruct left; reflexivity.
Qed.

End WebProbe.

(** X9.  Every request a cycle sends, the redirected ones included,
    carries the user agent [jsonmon]; a shell cycle sends none. *)
Theorem every_request_names_jsonmon `{GoLib} :
  forall (is_web : bool) (c : Check) (sleep : Z) (env : CycleEnv),
    Forall (fun r => UserAgent r = Some "jsonmon")
           (requests (snd (attempts is_web c sleep env)))
    /\ (is_web = false -> requests (snd (attempts is_web c sleep env)) = []).
Proof.
  intros is_web c sleep env. unfold attempts. destruct is_web.
  - split; [apply web_tries_agent | discriminate].
  - pose proof (shell_tries_no_request (Shell c) (Match c) sleep (runs env)
                  (Z.to_nat (Tries c)) 0%nat ("", None)) as N.
    destruct (shell_tries _ _ _ _ _ _ _) as [[o e] tr]. cbn [snd] in *.
    rewrite N. split; [constructor | reflexivity].
Qed.

(** X10.  A fetch succeeds exactly when the URL parses, the response that
    [client.Do] ends on has the expected status, and the match, if any,
    accepts its body.  A URL that does not parse sends no request; a
    response with another status fails with the text [url returned
    status], whatever the match is. *)
Theorem fetch_outcomes `{GoLib} :
  forall (srv : Server) (url m : string) (code : Z),
    (fst (fetch srv url m code) = None
     <-> NewRequest_err url = None
         /\ exists body,
              fst (client_Do srv (mkRequest url (Some "jsonmon")))
              = Some (DoResp code body)
              /\ match_output m body = None)
    /\ (forall e, NewRequest_err url = Some e -> fetch srv url m code = (Some e, []))
    /\ (forall st body,
           NewRequest_err url = None ->
           fst (client_Do srv (mkRequest url (Some "jsonmon"))) = Some (DoResp st body) ->
           st <> code ->
           fst (fetch srv url m code) = Some (url +:+ " returned " +:+ FormatInt st)).
Proof.
  intros srv url m code. unfold fetch. split; [|split].
  - destruct (NewRequest_err url) as [e|].
    + cbn [fst]. split; [discriminate | intros [N _]; discriminate].
    + destruct (client_Do srv (mkRequest url (Some "jsonmon")))
        as [[[e|st b]|] tr]; cbn [fst].
      * split; [discriminate | intros (_ & body & E & _); discriminate].
      * destruct (Z.eqb_spec st code) as [->|D]; cbn [negb fst].
        -- split.
           ++ intros M. split; [reflexivity|]. exists b. split; [reflexivity | exact M].
           ++ intros (_ & body & E & M). inversion E; subst. exact M.
        -- split; [discriminate|].
           intros (_ & body & E & _). inversion E; subst. contradiction.
      * split; [discriminate | intros (_ & body & E & _); discriminate].
  - intros e E. now rewrite E.
  - intros st body N E D. rewrite N.
    destruct (client_Do srv (mkRequest url (Some "jsonmon"))) as [r tr].
    cbn [fst] in E. subst r.
    destruct (Z.eqb_spec st code); [contradiction|]. reflexivity.
Qed.

(** ** The notifications of a transition *)

(** X11.  A cycle that takes a check down writes the log line, then sends
    the mail if [Notify] is set, then runs the alert command if [Alert]
    is set: log line and mail carry the subject [Failed: name] and the
    diagnostic.  A cycle that brings it up does the same with the
    subject [Fixed: name] and no diagnostic.  How sendmail fares has no
    part in the state the cycle leaves. *)
Theorem notifications_of_a_transition `{GoLib} :
  forall (is_web : bool) (name : string) (sleep repeat : Z) (c : Check) (t : string)
         (env : CycleEnv),
    let r := poll is_web name sleep repeat env (mkSt c t) in
    (forall msg,
        fst (attempts is_web c sleep env) = Some msg -> Failed c = false ->
        List.filter is_notification (trace_of r)
        = [EvStdout ("<5>" +:+ ("Failed: " +:+ name) +:+ nl +:+ msg +:+ nl)]
          ++ (if nonempty (Notify c)
              then [EvMail (mail_text (Notify c) ("Failed: " +:+ name) msg)] else [])
          ++ (if nonempty (Alert c)
              then [EvAlert (Alert c) [FormatBool true; name; msg]] else []))
    /\ (fst (attempts is_web c sleep env) = None -> Failed c = true ->
        List.filter is_notification (trace_of r)
        = [EvStdout ("<5>" +:+ ("Fixed: " +:+ name) +:+ nl)]
          ++ (if nonempty (Notify c)
              then [EvMail (mail_text (Notify c) ("Fixed: " +:+ name) "")] else [])
          ++ (if nonempty (Alert c)
              then [EvAlert (Alert c) [FormatBool false; name]] else []))
    /\ (forall start,
           state_of (poll is_web name sleep repeat
                       (mkEnv (runs env) (webs env) (now env) start (alert_run env))
                       (mkSt c t))
           = state_of r).
Proof.
  intros is_web name sleep repeat c t env r.
  assert (Tr : List.filter is_notification (trace_of r)
               = List.filter is_notification
                   (trace_of (process env name c (fst (attempts is_web c sleep env))
                                      (mkSt c t)))).
  { subst r. rewrite poll_eq. unfold trace_of at 1. cbn [snd].
    rewrite !List.filter_app.
    rewrite (quiet_filter _ _ quiet_not_notification
               (attempts_quiet is_web c sleep env)).
    cbn [List.filter is_notification app]. apply app_nil_r. }
  split; [|split].
  - intros msg E F. rewrite Tr, E. unfold process, when, mail_text. prog.
    rewrite F. simpl.
    destruct (nonempty (Notify c)), (nonempty (Alert c)), (mail_start env),
      (err (alert_run env)); reflexivity.
  - intros E F. rewrite Tr, E. unfold process, when, mail_text. prog.
    rewrite F. simpl.
    destruct (nonempty (Notify c)), (nonempty (Alert c)), (mail_start env),
      (err (alert_run env)); reflexivity.
  - intros start. subst r.
    destruct (poll_cases is_web name sleep repeat env c t) as [-> _].
    destruct (poll_cases is_web name sleep repeat
                (mkEnv (runs env) (webs env) (now env) start (alert_run env)) c t)
      as [-> _].
    reflexivity.
Qed.

(** ** The headers of the JSON API *)

(** X12.  [displayJSON], whatever it serves: the answer 304 carries the
    header [Server] and no other, so neither [ETag] nor [Cache-Control];
    the answer 200 carries [Server], [ETag] with the token, the three
    fixed headers and the content type, and no other. *)
Theorem headers_of_the_json_api :
  forall (r : HttpRequest) (data : Data) (cache : string) (lock : bool) (key : string),
    let w := displayJSON new_response r data cache lock in
    (status w = Some 304%Z /\ body w = ""
     /\ Header w !! key = (if String.eqb key "Server" then Some "jsonmon" else None))
    \/ (status w = Some 200%Z /\ body w = json_Marshal data
        /\ Header w !! key = json_headers cache key).
Proof.
  intros r data cache lock key w. subst w. unfold displayJSON.
  destruct (String.eqb (Header_Get (ReqHeader r) "If-None-Match") cache).
  - left. split; [reflexivity|]. split; [reflexivity|].
    cbv [WriteHeader Header_Set Header status body new_response].
    destruct (String.eqb_spec key "Server") as [->|D].
    + apply lookup_insert_eq.
    + rewrite lookup_insert_ne by congruence. apply lookup_empty.
  - right. split; [reflexivity|]. split; [reflexivity|].
    cbv [Write WriteHeader Header_Set Header status body new_response].
    unfold json_headers.
    repeat (match goal with
            | |- context [String.eqb key ?k] =>
                destruct (String.eqb_spec key k) as [->|?];
                [ repeat (rewrite lookup_insert_ne by discriminate);
                  apply lookup_insert_eq
                | rewrite (lookup_insert_ne _ k key) by congruence ]
            end).
    apply lookup_empty.
Qed.

(** ** What no worker ever changes *)

Lemma worker_start_identity c t :
  identity_of (chk (state_of (worker_start (mkSt c t)))) = identity_of c
  /\ tok (state_of (worker_start (mkSt c t))) = t.
Proof.
  destruct (invalid c) eqn:V.
  - destruct (worker_start_invalid c t V) as [msg ->]. split; reflexivity.
  - rewrite (worker_start_valid c t V). unfold state_of. cbn [fst snd chk tok].
    destruct (Repeat c =? 0)%Z, (Tries c =? 0)%Z, (nonempty (Web c) && (Return c =? 0)%Z);
      split; reflexivity.
Qed.

Section Stable.
Context `{GoLib}.

Lemma poll_identity is_web name sleep repeat env c t :
  identity_of (chk (state_of (poll is_web name sleep repeat env (mkSt c t))))
  = identity_of c
  /\ (tok (state_of (poll is_web name sleep repeat env (mkSt c t))) = t
      \/ tok (state_of (poll is_web name sleep repeat env (mkSt c t))) = etag (now env)).
Proof.
  destruct (poll_cases is_web name sleep repeat env c t) as [-> _].
  destruct (Bool.eqb _ _); split; try reflexivity; [now left | now right].
Qed.

Lemma map_insert_same {A B} (f : A -> B) (l : list A) i a b :
  l !! i = Some a -> f b = f a -> map f (<[i := b]> l) = map f l.
Proof.
  revert i. induction l as [|x l IH]; intros [|i] L E; simpl in *;
    try discriminate; try reflexivity.
  - inversion L; subst. now rewrite E.
  - f_equal. now apply IH.
Qed.

(** What a step keeps of the globals. *)
Lemma step_keeps i env s :
  map identity_of (checks (globals (step i env s))) = map identity_of (checks (globals s))
  /\ started (globals (step i env s)) = started (globals s)
  /\ version (globals (step i env s)) = version (globals s)
  /\ (modified (globals (step i env s)) = modified (globals s)
      \/ modified (globals (step i env s)) = etag (now env)).
Proof.
  unfold step.
  destruct (phases s !! i) as [[| w n sl r |]|] eqn:P;
    try (repeat split; try reflexivity; now left).
  - destruct (checks (globals s) !! i) as [c|] eqn:L.
    + rewrite (on_check_spec i worker_start s c L).
      cbn [globals checks started version modified].
      destruct (worker_start_identity c (modified (globals s))) as [I T].
      repeat split; try reflexivity.
      * now apply (map_insert_same identity_of _ i c).
      * left. exact T.
    + rewrite on_check_none by exact L. repeat split; try reflexivity; now left.
  - destruct (checks (globals s) !! i) as [c|] eqn:L.
    + rewrite (on_check_spec i _ s c L).
      cbn [globals checks started version modified].
      destruct (poll_identity w n sl r env c (modified (globals s))) as [I T].
      repeat split; try reflexivity.
      * now apply (map_insert_same identity_of _ i c).
      * exact T.
    + rewrite on_check_none by exact L. repeat split; try reflexivity; now left.
Qed.

Lemma run_keeps schedule : forall s,
  map identity_of (checks (globals (run schedule s))) = map identity_of (checks (globals s))
  /\ started (globals (run schedule s)) = started (globals s)
  /\ version (globals (run schedule s)) = version (globals s)
  /\ ((exists t, modified (globals s) = etag t) ->
      exists t, modified (globals (run schedule s)) = etag t).
Proof.
  induction schedule as [|[i env] schedule IH]; intros s.
  - repeat split; try reflexivity. trivial.
  - cbn [run]. destruct (step_keeps i env s) as (K1 & K2 & K3 & K4).
    destruct (IH (step i env s)) as (R1 & R2 & R3 & R4).
    repeat split; try congruence.
    intros [t E]. apply R4. destruct K4 as [K4|K4]; rewrite K4; eauto.
Qed.



End Stable.

(** ** C10: marking an invalid check leaves the token alone *)

Section Spawned.
Context `{GoLib}.

(** A worker that is still to start after a step was so before it, and
    the step has left its check alone. *)
Lemma step_spawned j env s i :
  phases (step j env s) !! i = Some Spawned ->
  phases s !! i = Some Spawned
  /\ checks (globals (step j env s)) !! i = checks (globals s) !! i.
Proof.
  destruct (Nat.eq_dec j i) as [->|D].
  - unfold step.
    destruct (phases s !! i) as [[| w n sl r |]|] eqn:P.
    + destruct (checks (globals s) !! i) as [c|] eqn:L.
      * rewrite (on_check_spec i worker_start s c L). cbn [phases].
        rewrite list_lookup_insert_eq by (eapply lookup_lt_Some; eauto).
        intros E. exfalso. inversion E as [E'].
        destruct (invalid c) eqn:V.
        -- destruct (worker_start_invalid c (modified (globals s)) V) as [msg W].
           rewrite W in E'. discriminate.
        -- rewrite (worker_start_valid c (modified (globals s)) V) in E'. discriminate.
      * rewrite on_check_none by exact L. intros E. now split.
    + destruct (checks (globals s) !! i) as [c|] eqn:L.
      * rewrite (on_check_spec i _ s c L). cbn [phases]. rewrite P. discriminate.
      * rewrite on_check_none by exact L. rewrite P. discriminate.
    + rewrite P. discriminate.
    + rewrite P. discriminate.
  - destruct (step_other i j env s D) as (Lc & Lp & _).
    rewrite Lc, Lp. intros E. now split.
Qed.

Lemma run_spawned schedule : forall s i,
  phases (run schedule s) !! i = Some Spawned ->
  phases s !! i = Some Spawned
  /\ checks (globals (run schedule s)) !! i = checks (globals s) !! i.
Proof.
  induction schedule as [|[j env] schedule IH]; intros s i E; [now split|].
  cbn [run] in *. destruct (IH (step j env s) i E) as [P L].
  destruct (step_spawned j env s i P) as [P' L'].
  split; [exact P' | congruence].
Qed.

End Spawned.

(** C10.  In every state of the process, the step that spawns the worker
    of an invalid check writes the flag of this check and nothing else:
    the other checks, its [Since], the [modified] token and the token of
    the start are as before, so that a client that sends the token the
    process had before the step gets 304 without a body after it,
    although the check is now failed.  In every state the process
    reaches from its start, a check whose worker is still to spawn is as
    the configuration has it, with an empty [Since]; and while no check
    has had a transition, the token is the token of the start. *)
Theorem C10_invalid_mark_keeps_the_token `{GoLib} :
  forall (s : Sys) (i : nat) (c : Check) (env : CycleEnv),
    checks (globals s) !! i = Some c ->
    invalid c = true ->
    phases s !! i = Some Spawned ->
    let s1 := step i env s in
    checks (globals s1) = <[i := set_Failed true c]> (checks (globals s))
    /\ checks (globals s1) !! i = Some (set_Failed true c)
    /\ Failed (set_Failed true c) = true
    /\ Since (set_Failed true c) = Since c
    /\ modified (globals s1) = modified (globals s)
    /\ started (globals s1) = started (globals s)
    /\ (forall r : HttpRequest,
           Header_Get (ReqHeader r) "If-None-Match" = modified (globals s) ->
           status (status_of s1 r) = Some 304%Z /\ body (status_of s1 r) = "")
    /\ (forall config t0 v schedule,
           s = run schedule (main config t0 v) ->
           load config !! i = Some c
           /\ Since c = "" /\ Failed c = false
           /\ started (globals s) = etag t0
           /\ (modified (globals s) = etag t0 ->
               forall r : HttpRequest,
                 Header_Get (ReqHeader r) "If-None-Match" = etag t0 ->
                 status (status_of s1 r) = Some 304%Z /\ body (status_of s1 r) = "")).
Proof.
  intros s i c env L V P s1.
  destruct (step_spawn_invalid i env s c L V P) as [msg E].
  assert (R : forall r : HttpRequest,
             Header_Get (ReqHeader r) "If-None-Match" = modified (globals s) ->
             status (status_of s1 r) = Some 304%Z /\ body (status_of s1 r) = "").
  { intros r Hr. subst s1. rewrite E.
    unfold status_of. cbn [globals]. apply getChecks_cached. exact Hr. }
  subst s1. rewrite E in *. cbn [globals checks modified started].
  split; [reflexivity|]. split.
  { apply list_lookup_insert_eq. eapply lookup_lt_Some; eauto. }
  split; [reflexivity|]. split; [reflexivity|].
  split; [reflexivity|]. split; [reflexivity|].
  split; [exact R|].
  intros config t0 v schedule Es.
  assert (P0 : phases (run schedule (main config t0 v)) !! i = Some Spawned)
    by (rewrite <- Es; exact P).
  destruct (run_spawned schedule (main config t0 v) i P0) as [_ L0].
  rewrite <- Es, L in L0. cbn [main globals checks] in L0. symmetry in L0.
  destruct (load_lookup config i c L0) as [Fc Sc].
  split; [exact L0|]. split; [exact Sc|]. split; [exact Fc|]. split.
  { rewrite Es. destruct (run_keeps schedule (main config t0 v)) as (_ & S & _).
    rewrite S. reflexivity. }
  intros M r Hr. apply R. now rewrite M.
Qed.

Lemma C10_invalid_mark_witness :
  status (status_of (@step example_lib 0 env_echo_ok
                       (@run example_lib [(1%nat, env_echo_ok)]
                          (main [check_neither; check_echo_ok] time_0 version_0)))
                    (mkHttpRequest (<["If-None-Match" := [etag time_0]]> ∅)))
  = Some 304%Z.
Proof.
  destruct (@C10_invalid_mark_keeps_the_token example_lib
              (@run example_lib [(1%nat, env_echo_ok)]
                 (main [check_neither; check_echo_ok] time_0 version_0))
              0%nat check_neither env_echo_ok)
    as (_ & _ & _ & _ & _ & _ & Hr & _).
  - reflexivity.
  - reflexivity.
  - reflexivity.
  - apply Hr. vm_compute. reflexivity.
Defined.

(** X13.  Whatever the workers do, the checks keep their number and
    their order, and each keeps its name, its URL, its command and the
    other fields that no worker writes: the array that [/status] serves
    has the entries of the configuration, in its order. *)
Theorem checks_keep_their_order `{GoLib} :
  forall (schedule : list (nat * CycleEnv)) (s : Sys),
    map identity_of (checks (globals (run schedule s)))
    = map identity_of (checks (globals s))
    /\ length (checks (globals (run schedule s))) = length (checks (globals s)).
Proof.
  intros schedule s.
  destruct (run_keeps schedule s) as (K & _).
  split; [exact K|].
  rewrite <- (length_map identity_of (checks (globals (run schedule s)))), K.
  apply length_map.
Qed.

(** X14.  [/version]: whatever the workers do, the token is the token of
    the start and the body is the version; a client that sends this
    token gets 304 without a body, any other client 200 with the version
    and the token of the start as [ETag]. *)
Theorem version_is_served_from_the_start `{GoLib} :
  forall (schedule : list (nat * CycleEnv)) (s : Sys) (r : HttpRequest),
    let w := getVersion (globals (run schedule s)) new_response r in
    (Header_Get (ReqHeader r) "If-None-Match" = started (globals s) ->
     status w = Some 304%Z /\ body w = "")
    /\ (Header_Get (ReqHeader r) "If-None-Match" <> started (globals s) ->
        status w = Some 200%Z
        /\ body w = marshal_ver (version (globals s))
        /\ Header w !! "ETag" = Some (started (globals s))).
Proof.
  intros schedule s r w. subst w.
  destruct (run_keeps schedule s) as (_ & S & V & _).
  unfold getVersion, displayJSON. rewrite S, V.
  destruct (String.eqb_spec (Header_Get (ReqHeader r) "If-None-Match")
                            (started (globals s))) as [E|D].
  - split; [intros _; split; reflexivity | intros N; contradiction].
  - split; [intros E; contradiction|]. intros _.
    split; [reflexivity|]. split; [reflexivity|].
    cbv [Write WriteHeader Header_Set Header status body new_response].
    do 4 (rewrite lookup_insert_ne by discriminate).
    apply lookup_insert_eq.
Qed.

(** X15.  A step of a polling worker that changes the checks writes the
    token in the same step, from the clock of this cycle; and no step
    leaves a token other than the one it found or the one of its clock. *)
Theorem a_change_of_the_checks_writes_the_token `{GoLib} :
  forall (i : nat) (env : CycleEnv) (s : Sys),
    (modified (globals (step i env s)) = modified (globals s)
     \/ modified (globals (step i env s)) = etag (now env))
    /\ (forall is_web name sleep repeat,
           phases s !! i = Some (Polling is_web name sleep repeat) ->
           checks (globals (step i env s)) <> checks (globals s) ->
           modified (globals (step i env s)) = etag (now env)).
Proof.
  intros i env s. split; [apply step_keeps|].
  intros is_web name sleep repeat P D. unfold step in *. rewrite P in *.
  destruct (checks (globals s) !! i) as [c|] eqn:L.
  - rewrite (on_check_spec i _ s c L) in *.
    cbn [globals checks modified] in *.
    destruct (poll_cases is_web name sleep repeat env c (modified (globals s)))
      as [E _].
    rewrite E in *.
    destruct (Bool.eqb (Failed c) (verdict is_web c sleep env)).
    + cbn [chk] in D. rewrite list_insert_id in D by exact L. contradiction.
    + reflexivity.
  - rewrite on_check_none in * by exact L. contradiction.
Qed.



(** ** The Web UI *)

(** X18.  [getUI] always names the server.  A path that is none of the
    four it knows gets 404.  For a path it knows, a request whose
    [If-Modified-Since] is the modification time of the asset,
    character for character, gets 304 without body and without
    [Last-Modified]; any other request gets 200 with the modification
    time, the content type and the asset, and an empty body when the
    asset cannot be read. *)
Theorem web_ui_answers :
  forall (a : Assets) (path : string) (r : HttpRequest),
    let w := getUI a new_response path r in
    Header w !! "Server" = Some "jsonmon"
    /\ match ui_asset a path with
       | None => status w = Some 404%Z /\ body w = "404 page not found" +:+ nl
       | Some (name, mime, modified) =>
           if String.eqb (Header_Get (ReqHeader r) "If-Modified-Since") modified
           then status w = Some 304%Z /\ body w = ""
                /\ Header w !! "Last-Modified" = None
           else status w = Some 200%Z
                /\ body w = default "" (Asset a name)
                /\ (Asset a name = None -> body w = "")
                /\ Header w !! "Last-Modified" = Some modified
                /\ Header w !! "Content-Type" = Some mime
       end.
Proof.
  intros a path r w. subst w. unfold getUI, ui_asset.
  assert (D : forall mime name modified,
    let w := displayUI a (Header_Set "Server" "jsonmon" new_response) r mime name modified in
    Header w !! "Server" = Some "jsonmon"
    /\ if String.eqb (Header_Get (ReqHeader r) "If-Modified-Since") modified
       then status w = Some 304%Z /\ body w = ""
            /\ Header w !! "Last-Modified" = None
       else status w = Some 200%Z
            /\ body w = default "" (Asset a name)
            /\ (Asset a name = None -> body w = "")
            /\ Header w !! "Last-Modified" = Some modified
            /\ Header w !! "Content-Type" = Some mime).
  { intros mime name modified. unfold displayUI.
    destruct (String.eqb (Header_Get (ReqHeader r) "If-Modified-Since") modified).
    - cbv [WriteHeader Header_Set Header status body new_response].
      split; [apply lookup_insert_eq|]. split; [reflexivity|]. split; [reflexivity|].
      rewrite lookup_insert_ne by discriminate. apply lookup_empty.
    - cbv [Write WriteHeader Header_Set Header status body new_response].
      split.
      { do 3 (rewrite lookup_insert_ne by discriminate). apply lookup_insert_eq. }
      split; [reflexivity|]. split; [reflexivity|].
      split; [intros ->; reflexivity|]. split.
      { rewrite lookup_insert_ne by discriminate. apply lookup_insert_eq. }
      apply lookup_insert_eq. }
  destruct (String.eqb path "/"); [apply D|].
  destruct (String.eqb path "/angular.min.js"); [apply D|].
  destruct (String.eqb path "/app.js"); [apply D|].
  destruct (String.eqb path "/main.css"); [apply D|].
  cbv [NotFound Write WriteHeader Header_Set Header status body new_response].
  split; [|split; reflexivity].
  do 2 (rewrite lookup_insert_ne by discriminate). apply lookup_insert_eq.
Qed.

(** ** Logging on Unix *)

(** X19.  [log] of [unix.go]: on the standard error every message is
    written, after its severity between angle brackets; with syslog a
    message is passed on exactly when its severity is 2, 3, 4, 5 or 7,
    and a message of any other severity is dropped. *)
Theorem syslog_drops_other_severities :
  forall (severity : Z) (message : string),
    Unix.log false severity message
    = [Unix.Stderr ("<" +:+ FormatInt severity +:+ ">" +:+ message +:+ nl)]
    /\ (Unix.log true severity message = []
        <-> ~ In severity [2; 3; 4; 5; 7]%Z)
    /\ (length (Unix.log true severity message) <= 1)%nat.
Proof.
  intros severity message. split; [reflexivity|].
  unfold Unix.log. cbn [negb].
  repeat (match goal with
          | |- context [(severity =? ?k)%Z] =>
              destruct (Z.eqb_spec severity k) as [->|?];
              [ split; [split; [discriminate | intros N; exfalso; apply N; simpl; auto 10]
                       | cbn; lia] | ]
          end).
  split; [|cbn; lia].
  split; [|reflexivity]. intros _ N. simpl in N. intuition congruence.
Qed.

(** ** A worker and its steps *)

Section Slices.
Context `{GoLib}.

Lemma run_polls i is_web name sleep repeat : forall envs s c,
  checks (globals s) !! i = Some c ->
  phases s !! i = Some (Polling is_web name sleep repeat) ->
  let r := polls is_web name sleep repeat envs (mkSt c (modified (globals s))) in
  run (map (pair i) envs) s
  = mkSys (mkMon (<[i := chk (state_of r)]> (checks (globals s))) (tok (state_of r))
                 (started (globals s)) (version (globals s)) (checks_nil (globals s)))
          (phases s) (journal s ++ map (pair i) (trace_of r)).
Proof.
  induction envs as [|env envs IH]; intros s c L P r.
  - subst r. cbn. rewrite list_insert_id by exact L. rewrite app_nil_r.
    now destruct s as [[? ? ? ?] ? ?].
  - subst r. cbn [map run].
    destruct (polls_cons is_web name sleep repeat env envs
                (mkSt c (modified (globals s)))) as [-> ->].
    set (st1 := state_of (poll is_web name sleep repeat env
                            (mkSt c (modified (globals s))))).
    assert (E1 : step i env s
                 = mkSys (mkMon (<[i := chk st1]> (checks (globals s))) (tok st1)
                                (started (globals s)) (version (globals s))
                                (checks_nil (globals s)))
                         (phases s)
                         (journal s ++ map (pair i)
                            (trace_of (poll is_web name sleep repeat env
                                         (mkSt c (modified (globals s))))))).
    { unfold step. rewrite P, (on_check_spec i _ s c L). reflexivity. }
    rewrite E1.
    assert (Li : (i < length (checks (globals s)))%nat)
      by (eapply lookup_lt_Some; eauto).
    rewrite (IH _ (chk st1)).
    + cbn [globals checks modified started version phases journal].
      rewrite list_insert_insert_eq, map_app, <- app_assoc.
      destruct st1 as [c1 t1]. reflexivity.
    + cbn [globals checks]. now apply list_lookup_insert_eq.
    + exact P.
Qed.

End Slices.

(** X21.  A worker that is let go on for its spawn and then once for each
    of [envs] leaves the globals and the journal that [worker] leaves
    when it is run on its check for the cycles [envs] in one piece:
    the steps of the scheduler cut [worker] and lose nothing of it. *)
Theorem steps_make_the_worker `{GoLib} :
  forall (i : nat) (env0 : CycleEnv) (envs : list CycleEnv) (s : Sys) (c : Check),
    checks (globals s) !! i = Some c ->
    phases s !! i = Some Spawned ->
    let r := worker envs (mkSt c (modified (globals s))) in
    let s' := run (map (pair i) (env0 :: envs)) s in
    globals s' = mkMon (<[i := chk (state_of r)]> (checks (globals s))) (tok (state_of r))
                       (started (globals s)) (version (globals s))
                       (checks_nil (globals s))
    /\ journal s' = journal s ++ map (pair i) (trace_of r).
Proof.
  intros i env0 envs s c L P r s'. subst r s'. cbn [map run].
  assert (Li : (i < length (checks (globals s)))%nat)
    by (eapply lookup_lt_Some; eauto).
  assert (Lp : (i < length (phases s))%nat)
    by (eapply lookup_lt_Some; eauto).
  unfold worker, bind.
  destruct (invalid c) eqn:V.
  - destruct (step_spawn_invalid i env0 s c L V P) as [msg E]. rewrite E.
    destruct (worker_start_invalid c (modified (globals s)) V) as [msg' W].
    assert (msg' = msg) as ->.
    { unfold step in E. rewrite P, (on_check_spec i worker_start s c L), W in E.
      unfold trace_of in E. cbn [fst snd map] in E.
      inversion E as [J]. apply app_inv_head in J. now inversion J. }
    rewrite W. unfold state_of, trace_of. cbn [fst snd chk tok app ret].
    set (s1 := mkSys _ _ _).
    destruct (run_returned (map (pair i) envs) s1 i (set_Failed true c)) as (R1 & R2 & R3).
    { subst s1. cbn [globals checks]. now apply list_lookup_insert_eq. }
    { subst s1. cbn [phases]. now apply list_lookup_insert_eq. }
    assert (Same : forall sched s2, phases s2 !! i = Some Returned ->
                     Forall (fun ie => fst ie = i) sched -> run sched s2 = s2).
    { induction sched as [|[j e] sched IHs]; intros s2 Pr Fa; [reflexivity|].
      inversion Fa as [|x l Hj Hrest]. cbn [fst] in Hj.
      cbn [run]. rewrite Hj, step_returned by exact Pr. now apply IHs. }
    rewrite Same.
    + subst s1. cbn [globals journal]. split; reflexivity.
    + subst s1. cbn [phases]. now apply list_lookup_insert_eq.
    + clear. induction envs; constructor; [reflexivity | assumption].
  - assert (W : exists w nm sl rp c3,
                 worker_start (mkSt c (modified (globals s)))
                 = (Polling w nm sl rp, mkSt c3 (modified (globals s)), [])).
    { rewrite (worker_start_valid c (modified (globals s)) V). eauto 10. }
    destruct W as (w & nm & sl & rp & c3 & W). rewrite W.
    assert (E1 : step i env0 s
                 = mkSys (mkMon (<[i := c3]> (checks (globals s))) (modified (globals s))
                                (started (globals s)) (version (globals s))
                                (checks_nil (globals s)))
                         (<[i := Polling w nm sl rp]> (phases s))
                         (journal s ++ [])).
    { unfold step. rewrite P, (on_check_spec i worker_start s c L), W. reflexivity. }
    rewrite E1.
    rewrite (run_polls i w nm sl rp envs _ c3).
    + cbn [globals checks modified started version journal].
      rewrite list_insert_insert_eq, app_nil_r.
      unfold state_of, trace_of.
      destruct (polls _ _ _ _ envs _) as [[[] st] tr]. cbn [fst snd app].
      split; reflexivity.
    + cbn [globals checks]. now apply list_lookup_insert_eq.
    + cbn [phases]. now apply list_lookup_insert_eq.
Qed.

Lemma steps_make_the_worker_witness :
  journal (@run example_lib (map (pair 0%nat) [env_echo_ok; env_exit_1])
             (main [check_alerting] time_0 version_0))
  = map (pair 0%nat)
        (trace_of (@worker example_lib [env_exit_1]
                     (mkSt check_alerting (etag time_0)))).
Proof.
  destruct (@steps_make_the_worker example_lib 0%nat env_echo_ok [env_exit_1]
              (main [check_alerting] time_0 version_0) check_alerting)
    as [_ J].
  - reflexivity.
  - reflexivity.
  - exact J.
Defined.
